(** * Gift-App: order placement and order lifecycle

    A shallow embedding of
    - the orders route, [POST] (the handler that imports [Order],
      [OrderValidationSchema] and [Gift]; [src/unnamed/part_002]);
    - the single-order route, [GET] and [PUT]
      ([src/app/api/orders/[id]/route.ts]);
    - the order model: [IOrder], the Zod schemas up to
      [OrderValidationSchema], the Mongoose [OrderSchema] and its pre-save
      hook (second part of [src/app/api/gifts/route.ts]);
    - the stock fields of the gift model ([src/global/models/Gift.ts]);
    - [validateData] ([src/unnamed/part_003]);
    - the tracking route, [GET] (second part of
      [src/app/api/auth/register/route.ts]);
    - the API middleware, [isPublic] and [middleware]
      ([src/app/api/middleware.ts]);
    - the gift model: [IGift], [ReviewSchema], [AgeRangeSchema],
      [GiftValidationSchema] and the Mongoose [GiftSchema]
      ([src/global/models/Gift.ts]);
    - the gift routes: [POST] (first part of [src/app/api/gifts/route.ts])
      and [GET], [PUT], [DELETE] of one gift (second part of
      [src/app/api/middleware.ts]).

    Conventions of the embedding.
    - A JavaScript [number] is a finite IEEE-754 double, represented by
      the rational it denotes ([Q]); comparisons, and [===] on numbers
      ([Qeq_bool]), are comparisons of rationals.  The arithmetic of the
      amount check is binary64 arithmetic, each operation rounded, as
      specified by [SpecFloat] of the standard library.
    - A [Date] is its epoch time in milliseconds ([Z]).
    - Document and user identifiers are strings, each one a well-formed
      [ObjectId].
    - The body of a placement request and of a gift request is a record
      whose fields carry the JSON type the schema expects; fields that may
      be missing are [option]s.  The fields that [PUT] reads from its body
      are not validated by the handler and are arbitrary JSON values.
    - The database is a pair of finite maps (gifts, orders) together with the
      write buffer of the open transaction and a log of the operations
      issued against it.  Handlers run one at a time; the database itself
      does not fail.
    - Functions of the platform that the code calls and does not define
      ([encodeURI], [new URL], [String.prototype.trim], the local time of
      [Date.prototype.setHours]) are parameters. *)

From Stdlib Require Import QArith Qabs ZArith Lia Ascii String List SpecFloat.
From stdpp Require Import base option gmap strings pretty list fin_maps.

Local Open Scope Q_scope.
Local Open Scope string_scope.

(** ** JavaScript numbers *)

Definition Qlt_bool (x y : Q) : bool := negb (Qle_bool y x).

(** Binary64: 53 bits of precision, exponents below 1024. *)
Definition prec64 : Z := 53.
Definition emax64 : Z := 1024.

(** The double nearest to a rational (ties to even): the number that
    [JSON.parse] and a numeric literal yield.  A rational that is a finite
    double is converted exactly. *)
Definition double (q : Q) : spec_float :=
  match Qnum q with
  | Z0 => S754_zero false
  | Zpos n =>
      SFdiv prec64 emax64 (S754_finite false n 0)
        (S754_finite false (Qden q) 0)
  | Zneg n =>
      SFdiv prec64 emax64 (S754_finite true n 0)
        (S754_finite false (Qden q) 0)
  end.

(** [x + y], [x - y], [x * y], [Math.abs(x)] and [x < y] on doubles. *)
Definition js_add (x y : spec_float) : spec_float := SFadd prec64 emax64 x y.
Definition js_sub (x y : spec_float) : spec_float := SFsub prec64 emax64 x y.
Definition js_mul (x y : spec_float) : spec_float := SFmul prec64 emax64 x y.
Definition js_abs (x : spec_float) : spec_float := SFabs x.
Definition js_lt (x y : spec_float) : bool := SFltb x y.

(** A [Date], as milliseconds since the epoch. *)
Definition Date := Z.

(** ** Enumerations of the order model *)

Inductive Gender := boy | girl | unisex.

Inductive PaymentMethod :=
  credit_card | debit_card | upi | wallet | cash_on_delivery.

Inductive PaymentStatus :=
  payment_pending | payment_completed | payment_failed | payment_refunded.

Inductive OrderStatus :=
  pending | confirmed | preparing | out_for_delivery | delivered | canceled.

(** [z.enum([...])]: a string is accepted when it is one of the listed
    literals. *)
Definition parse_Gender (s : string) : option Gender :=
  if String.eqb s "boy" then Some boy
  else if String.eqb s "girl" then Some girl
  else if String.eqb s "unisex" then Some unisex
  else None.

Definition parse_PaymentMethod (s : string) : option PaymentMethod :=
  if String.eqb s "credit_card" then Some credit_card
  else if String.eqb s "debit_card" then Some debit_card
  else if String.eqb s "upi" then Some upi
  else if String.eqb s "wallet" then Some wallet
  else if String.eqb s "cash_on_delivery" then Some cash_on_delivery
  else None.

Definition parse_PaymentStatus (s : string) : option PaymentStatus :=
  if String.eqb s "pending" then Some payment_pending
  else if String.eqb s "completed" then Some payment_completed
  else if String.eqb s "failed" then Some payment_failed
  else if String.eqb s "refunded" then Some payment_refunded
  else None.

Definition parse_OrderStatus (s : string) : option OrderStatus :=
  if String.eqb s "pending" then Some pending
  else if String.eqb s "confirmed" then Some confirmed
  else if String.eqb s "preparing" then Some preparing
  else if String.eqb s "out_for_delivery" then Some out_for_delivery
  else if String.eqb s "delivered" then Some delivered
  else if String.eqb s "canceled" then Some canceled
  else None.

Definition Gender_str (g : Gender) : string :=
  match g with boy => "boy" | girl => "girl" | unisex => "unisex" end.

Definition PaymentMethod_str (m : PaymentMethod) : string :=
  match m with
  | credit_card => "credit_card" | debit_card => "debit_card"
  | upi => "upi" | wallet => "wallet"
  | cash_on_delivery => "cash_on_delivery"
  end.

Definition PaymentStatus_str (s : PaymentStatus) : string :=
  match s with
  | payment_pending => "pending" | payment_completed => "completed"
  | payment_failed => "failed" | payment_refunded => "refunded"
  end.

Definition OrderStatus_str (s : OrderStatus) : string :=
  match s with
  | pending => "pending" | confirmed => "confirmed"
  | preparing => "preparing" | out_for_delivery => "out_for_delivery"
  | delivered => "delivered" | canceled => "canceled"
  end.

(** ** Documents *)

(** The stock fields of a gift ([IGift]); the catalogue fields (name, price,
    images, ...) are neither read nor written by the order routes. *)
Record Gift := mkGift {
  inStock : bool;
  stockCount : Q;
}.

Record Recipient := mkRecipient {
  name : string;
  age : Q;
  gender : Gender;
  occasion : option string;
}.

Record OrderItem := mkItem {
  gift : string;
  quantity : Q;
  price : Q;
}.

Record DeliveryAddress := mkAddress {
  address : string;
  city : string;
  state : string;
  zipCode : string;
}.

Record PaymentInfo := mkPayment {
  method : PaymentMethod;
  payment_status : PaymentStatus;
  transactionId : option string;
}.

Record Location := mkLocation { lat : Q; lng : Q }.

Record DeliveryPartner := mkPartner {
  partner_name : string;
  phone : string;
  currentLocation : option Location;
}.

Record TrackingEvent := mkEvent {
  event_status : string;
  timestamp : Date;
  description : option string;
}.

(** An order document ([IOrder]); its [_id] is the key under which the
    store holds it. *)
Record Order := mkOrder {
  user : string;
  recipient : Recipient;
  items : list OrderItem;
  deliveryAddress : DeliveryAddress;
  paymentInfo : PaymentInfo;
  status : OrderStatus;
  deliveryTime : Date;
  specialInstructions : option string;
  totalAmount : Q;
  deliveryFee : Q;
  tax : Q;
  discount : Q;
  deliveryPartner : option DeliveryPartner;
  tracking : list TrackingEvent;
}.

(** ** Zod schemas ([global/models/Order.ts])

    A parse yields the issues found (as field paths, the keys of the error
    map that [validateData] builds) and, unless a value had the wrong shape,
    the parsed value.  A failed check ([min], [positive], [regex], ...)
    records an issue and keeps the value; a value outside an enumeration, a
    missing required field or a non-[Date] where a [Date] is expected records
    an issue and yields no value.  A refinement runs on the parsed value when
    there is one. *)

Definition Zod (T : Type) : Type := (list string * option T)%type.

Definition zod_ok {T} (v : T) : Zod T := ([], Some v).

Definition zod_check {T} (ok : bool) (path : string) (v : T) : Zod T :=
  (if ok then [] else [path], Some v).

Definition zod_invalid {T} (path : string) : Zod T := ([path], None).

Definition zod_ap {A B} (f : Zod (A -> B)) (a : Zod A) : Zod B :=
  ((f.1 ++ a.1)%list,
   match f.2, a.2 with
   | Some g, Some x => Some (g x)
   | _, _ => None
   end).

Definition zod_map {A B} (g : A -> B) (a : Zod A) : Zod B :=
  zod_ap (zod_ok g) a.

Definition zod_refine {T} (r : Zod T) (pred : T -> bool) (path : string)
  : Zod T :=
  match r.2 with
  | Some d => (if pred d then r.1 else (r.1 ++ [path])%list, Some d)
  | None => r
  end.

Notation "f <$$> a" := (zod_map f a) (at level 61, left associativity).
Notation "f <**> a" := (zod_ap f a) (at level 61, left associativity).

(** [schema.optional()] *)
Definition zod_optional {A B} (schema : string -> A -> Zod B) (path : string)
    (v : option A) : Zod (option B) :=
  match v with
  | None => zod_ok None
  | Some x => Some <$$> schema path x
  end.

(** [z.array(schema)]: element [i] is parsed at path [path.i]. *)
Fixpoint zod_array_from {A B} (schema : string -> A -> Zod B) (path : string)
    (i : nat) (l : list A) : Zod (list B) :=
  match l with
  | [] => zod_ok []
  | x :: l' =>
      cons <$$> schema (path +:+ "." +:+ pretty i) x
           <**> zod_array_from schema path (S i) l'
  end.

Definition zod_array {A B} (schema : string -> A -> Zod B) (path : string)
    (l : list A) : Zod (list B) :=
  zod_array_from schema path 0 l.

(** [schema.default(v)] *)
Definition zod_default {A B} (dflt : B) (schema : string -> A -> Zod B)
    (path : string) (v : option A) : Zod B :=
  match v with
  | None => zod_ok dflt
  | Some x => schema path x
  end.

(** A field without [optional()] or [default()]. *)
Definition zod_required {A B} (schema : string -> A -> Zod B) (path : string)
    (v : option A) : Zod B :=
  match v with
  | None => zod_invalid path
  | Some x => schema path x
  end.

(** [z.enum([...])] *)
Definition z_enum {T} (parse : string -> option T) (path : string)
    (s : string) : Zod T :=
  match parse s with
  | Some v => zod_ok v
  | None => zod_invalid path
  end.

(** [z.string()] and [z.string().min(n)] *)
Definition z_string (path : string) (s : string) : Zod string := zod_ok s.

Definition z_string_min (n : nat) (path : string) (s : string) : Zod string :=
  zod_check (n <=? String.length s)%nat path s.

Definition is_digit (c : ascii) : bool :=
  ((48 <=? nat_of_ascii c) && (nat_of_ascii c <=? 57))%nat.

(** [z.string().regex(/^\d{lo,hi}$/)] *)
Definition z_string_digits (lo hi : nat) (path : string) (s : string)
  : Zod string :=
  zod_check
    (forallb is_digit (list_ascii_of_string s)
     && (lo <=? String.length s)%nat && (String.length s <=? hi)%nat)
    path s.

(** [z.number()], [z.number().positive()], [z.number().nonnegative()]
    (and [z.number().min(0)]) *)
Definition z_number (path : string) (x : Q) : Zod Q := zod_ok x.

Definition z_number_positive (path : string) (x : Q) : Zod Q :=
  zod_check (Qlt_bool 0 x) path x.

Definition z_number_nonnegative (path : string) (x : Q) : Zod Q :=
  zod_check (Qle_bool 0 x) path x.

(** A value as it reaches [z.date()]: a [Date] object, or something else
    (JSON has no dates, so a date sent in a request body arrives as text). *)
Inductive JsDate := IsDate (d : Date) | NotDate (raw : string).

(** [z.date()] *)
Definition z_date (path : string) (v : JsDate) : Zod Date :=
  match v with
  | IsDate d => zod_ok d
  | NotDate _ => zod_invalid path
  end.

(** [z.array(schema).min(n)] *)
Definition zod_array_min {A B} (n : nat) (schema : string -> A -> Zod B)
    (path : string) (l : list A) : Zod (list B) :=
  zod_refine (zod_array schema path l) (fun l' => (n <=? length l')%nat) path.

(** [schema.parse] / [schema.parseAsync]: the value when no issue was
    raised, the issues (a [ZodError]) otherwise. *)
Definition zod_parse {T} (r : Zod T) : list string + T :=
  match r with
  | ([], Some v) => inr v
  | (issues, _) => inl issues
  end.

(** Values before validation: enumerated fields are still strings, fields
    with a default or marked optional may be absent. *)
Record RecipientInput := mkRecipientInput {
  in_name : string;
  in_age : Q;
  in_gender : string;
  in_occasion : option string;
}.

Record PaymentInfoInput := mkPaymentInput {
  in_method : string;
  in_payment_status : option string;
  in_transactionId : option string;
}.

(** A delivery partner as the schema receives it: each leaf may be
    missing. *)
Record LocationInput := mkLocationInput {
  in_lat : option Q;
  in_lng : option Q;
}.

Record DeliveryPartnerInput := mkPartnerInput {
  in_partner_name : option string;
  in_phone : option string;
  in_currentLocation : option LocationInput;
}.

Record TrackingEventInput := mkEventInput {
  in_event_status : string;
  in_timestamp : option JsDate;
  in_description : option string;
}.

Record OrderInput := mkOrderInput {
  in_user : option string;
  in_recipient : RecipientInput;
  in_items : list OrderItem;
  in_deliveryAddress : DeliveryAddress;
  in_paymentInfo : PaymentInfoInput;
  in_status : option string;
  in_deliveryTime : option JsDate;
  in_specialInstructions : option string;
  in_totalAmount : Q;
  in_deliveryFee : Q;
  in_tax : Q;
  in_discount : option Q;
  in_deliveryPartner : option DeliveryPartnerInput;
  in_tracking : option (list TrackingEventInput);
}.

(** The parsed output of [OrderValidationSchema]. *)
Record OrderData := mkOrderData {
  d_user : string;
  d_recipient : Recipient;
  d_items : list OrderItem;
  d_deliveryAddress : DeliveryAddress;
  d_paymentInfo : PaymentInfo;
  d_status : OrderStatus;
  d_deliveryTime : Date;
  d_specialInstructions : option string;
  d_totalAmount : Q;
  d_deliveryFee : Q;
  d_tax : Q;
  d_discount : Q;
  d_deliveryPartner : option DeliveryPartner;
  d_tracking : option (list TrackingEvent);
}.

Section Schemas.
(** The clock read by [z.date().default(() => new Date())]. *)
Variable now : Date.

Definition RecipientSchema (p : string) (r : RecipientInput) : Zod Recipient :=
  mkRecipient
    <$$> z_string_min 2 (p +:+ ".name") (in_name r)
    <**> z_number_nonnegative (p +:+ ".age") (in_age r)
    <**> z_enum parse_Gender (p +:+ ".gender") (in_gender r)
    <**> zod_optional z_string (p +:+ ".occasion") (in_occasion r).

Definition OrderItemSchema (p : string) (it : OrderItem) : Zod OrderItem :=
  mkItem
    <$$> z_string_min 1 (p +:+ ".gift") (gift it)
    <**> z_number_positive (p +:+ ".quantity") (quantity it)
    <**> z_number_nonnegative (p +:+ ".price") (price it).

Definition DeliveryAddressSchema (p : string) (a : DeliveryAddress)
  : Zod DeliveryAddress :=
  mkAddress
    <$$> z_string_min 5 (p +:+ ".address") (address a)
    <**> z_string_min 2 (p +:+ ".city") (city a)
    <**> z_string_min 2 (p +:+ ".state") (state a)
    <**> z_string_digits 5 6 (p +:+ ".zipCode") (zipCode a).

Definition PaymentInfoSchema (p : string) (pi : PaymentInfoInput)
  : Zod PaymentInfo :=
  mkPayment
    <$$> z_enum parse_PaymentMethod (p +:+ ".method") (in_method pi)
    <**> zod_default payment_pending (z_enum parse_PaymentStatus)
           (p +:+ ".status") (in_payment_status pi)
    <**> zod_optional z_string (p +:+ ".transactionId") (in_transactionId pi).

Definition LocationSchema (p : string) (l : LocationInput) : Zod Location :=
  mkLocation
    <$$> zod_required z_number (p +:+ ".lat") (in_lat l)
    <**> zod_required z_number (p +:+ ".lng") (in_lng l).

Definition DeliveryPartnerSchema (p : string) (dp : DeliveryPartnerInput)
  : Zod DeliveryPartner :=
  mkPartner
    <$$> zod_required z_string (p +:+ ".name") (in_partner_name dp)
    <**> zod_required (z_string_digits 10 10) (p +:+ ".phone") (in_phone dp)
    <**> zod_optional LocationSchema (p +:+ ".currentLocation")
           (in_currentLocation dp).

Definition TrackingEventSchema (p : string) (e : TrackingEventInput)
  : Zod TrackingEvent :=
  mkEvent
    <$$> z_string_min 1 (p +:+ ".status") (in_event_status e)
    <**> zod_default now z_date (p +:+ ".timestamp") (in_timestamp e)
    <**> zod_optional z_string (p +:+ ".description") (in_description e).

(** The sum computed by the refinement of [OrderValidationSchema]:
    [items.reduce((sum, item) => sum + item.price * item.quantity, 0)]. *)
Definition calculatedTotal (its : list OrderItem) : spec_float :=
  fold_left
    (fun sum item =>
       js_add sum (js_mul (double (price item)) (double (quantity item))))
    its (S754_zero false).

(** [calculatedTotal + data.deliveryFee + data.tax - data.discount] *)
Definition expectedTotal (its : list OrderItem) (fee tx disc : Q)
  : spec_float :=
  js_sub (js_add (js_add (calculatedTotal its) (double fee)) (double tx))
    (double disc).

(** [Math.abs(expectedTotal - data.totalAmount) < 0.01] *)
Definition amounts_match (its : list OrderItem) (fee tx disc total : Q)
  : bool :=
  js_lt (js_abs (js_sub (expectedTotal its fee tx disc) (double total)))
    (double (1 # 100)).

(** The predicate handed to [.refine]. *)
Definition total_matches (d : OrderData) : bool :=
  amounts_match (d_items d) (d_deliveryFee d) (d_tax d) (d_discount d)
    (d_totalAmount d).

(** The [z.object({...})] under the refinement. *)
Definition OrderObjectSchema (o : OrderInput) : Zod OrderData :=
  mkOrderData
    <$$> zod_required (z_string_min 1) "user" (in_user o)
    <**> RecipientSchema "recipient" (in_recipient o)
    <**> zod_array_min 1 OrderItemSchema "items" (in_items o)
    <**> DeliveryAddressSchema "deliveryAddress" (in_deliveryAddress o)
    <**> PaymentInfoSchema "paymentInfo" (in_paymentInfo o)
    <**> zod_default pending (z_enum parse_OrderStatus) "status"
           (in_status o)
    <**> zod_required z_date "deliveryTime" (in_deliveryTime o)
    <**> zod_optional z_string "specialInstructions"
           (in_specialInstructions o)
    <**> z_number_positive "totalAmount" (in_totalAmount o)
    <**> z_number_nonnegative "deliveryFee" (in_deliveryFee o)
    <**> z_number_nonnegative "tax" (in_tax o)
    <**> zod_default 0 z_number_nonnegative "discount" (in_discount o)
    <**> zod_optional DeliveryPartnerSchema "deliveryPartner"
           (in_deliveryPartner o)
    <**> zod_optional (zod_array TrackingEventSchema) "tracking"
           (in_tracking o).

Definition OrderValidationSchema (o : OrderInput) : Zod OrderData :=
  zod_refine (OrderObjectSchema o) total_matches "totalAmount".
End Schemas.

(** [validateData(schema, data)] ([global/lib/validate.ts]): the parsed data
    on success, the error map (here its keys, one per issue) on a
    [ZodError]. *)
Definition validateData {T} (r : Zod T) : list string + T := zod_parse r.

(** ** Mongoose schema validators

    The validators declared in [OrderSchema] and [GiftSchema] that a typed
    document can still violate ([min] bounds); they run on [save], before
    the pre-save hooks.  The result lists the failing paths. *)

Definition OrderSchema_validate (o : Order) : list string :=
  ((if Qle_bool 0 (age (recipient o)) then [] else ["recipient.age"])
   ++ concat (imap (fun i it =>
        if Qle_bool 1 (quantity it) then []
        else ["items." +:+ pretty i +:+ ".quantity"]) (items o)))%list.

Definition GiftSchema_validate (g : Gift) : list string :=
  if Qle_bool 0 (stockCount g) then [] else ["stockCount"].

(** ** The database *)

Record Store := mkStore {
  gifts : gmap string Gift;
  orders : gmap string Order;
}.

(** What a query or a [save] is given as its [session] option.  The order
    routes have two values in scope: [orderSession], the [ClientSession]
    returned by [mongoose.startSession()], and [session], the caller's
    next-auth session.  An operation that carries the client session
    belongs to its transaction; without the option it is an ordinary read
    or write.  The next-auth session is not a [ClientSession]: the driver,
    handed it with a write, throws a [TypeError] and sends nothing. *)
Inductive SessionOption :=
  | no_session
  | client_session
  | next_auth_session.

Inductive DbOp :=
  | op_connect
  | op_startSession
  | op_startTransaction
  | op_find_gift (id : string)
  | op_save_gift (id : string)
  | op_find_order (id : string)
  | op_populate_gifts (ids : list string)
  | op_save_order (id : string)
  | op_commitTransaction
  | op_abortTransaction
  | op_endSession.

(** [committed] is what every reader sees.  [transaction] holds the writes
    issued under the client session while its transaction is open: they
    reach [committed] on commit and are dropped on abort.  A write issued
    without a session option is applied to [committed] at once.  [log]
    records the operations in the order issued. *)
Record Db := mkDb {
  committed : Store;
  transaction : option Store;
  log : list DbOp;
}.

Inductive Exn :=
  | Error (message : string)
  | ValidationError (paths : list string)
  | ZodError (issues : list string)
  | DuplicateKeyError (id : string)
  | TypeError.  (* thrown by the driver; its message is the driver's *)

(** Computations that read and write the database and may throw. *)
Definition M (A : Type) : Type := Db -> Db * (Exn + A).

Definition ret {A} (a : A) : M A := fun db => (db, inr a).

Definition throw {A} (e : Exn) : M A := fun db => (db, inl e).

Definition bind {A B} (m : M A) (k : A -> M B) : M B :=
  fun db =>
    match m db with
    | (db', inr a) => k a db'
    | (db', inl e) => (db', inl e)
    end.

(** [try { m } catch (error) { handler(error) }] *)
Definition try_catch {A} (m : M A) (handler : Exn -> M A) : M A :=
  fun db =>
    match m db with
    | (db', inr a) => (db', inr a)
    | (db', inl e) => handler e db'
    end.

(** [try { m } finally { cleanup }] *)
Definition try_finally {A} (m : M A) (cleanup : M unit) : M A :=
  fun db =>
    match m db with
    | (db', r) =>
        match cleanup db' with
        | (db'', inr _) => (db'', r)
        | (db'', inl e) => (db'', inl e)
        end
    end.

Notation "x <- m ;; k" := (bind m (fun x => k))
  (at level 100, m at next level, right associativity).
Notation "m ;;; k" := (bind m (fun _ => k))
  (at level 100, right associativity).

Definition record (op : DbOp) : M unit :=
  fun db => (mkDb (committed db) (transaction db) (log db ++ [op])%list, inr tt).

Definition connectToDatabase : M unit := record op_connect.

Definition startSession : M unit := record op_startSession.

Definition startTransaction : M unit :=
  record op_startTransaction ;;;
  fun db => (mkDb (committed db) (Some (mkStore ∅ ∅)) (log db), inr tt).

Definition commitTransaction : M unit :=
  record op_commitTransaction ;;;
  fun db =>
    match transaction db with
    | Some w =>
        (mkDb (mkStore (gifts w ∪ gifts (committed db))
                       (orders w ∪ orders (committed db)))
              None (log db), inr tt)
    | None => (db, inr tt)
    end.

Definition abortTransaction : M unit :=
  record op_abortTransaction ;;;
  fun db => (mkDb (committed db) None (log db), inr tt).

Definition endSession : M unit := record op_endSession.

(** An operation carrying session option [s] takes part in the open
    transaction when [s] is the client session. *)
Definition enrolled (s : SessionOption) (db : Db) : option Store :=
  match s, transaction db with
  | client_session, Some w => Some w
  | _, _ => None
  end.

(** [Gift.findById(id).session(s)]: inside the transaction a reader sees
    the transaction's own writes over the committed documents. *)
Definition Gift_findById (s : SessionOption) (id : string) : M (option Gift) :=
  record (op_find_gift id) ;;;
  fun db =>
    (db, inr (match enrolled s db with
              | Some w => (gifts w ∪ gifts (committed db)) !! id
              | None => gifts (committed db) !! id
              end)).

Definition write_gift (s : SessionOption) (id : string) (g : Gift) : M unit :=
  fun db =>
    (match enrolled s db with
     | Some w =>
         mkDb (committed db)
              (Some (mkStore (<[id := g]> (gifts w)) (orders w)))
              (log db)
     | None =>
         mkDb (mkStore (<[id := g]> (gifts (committed db)))
                       (orders (committed db)))
              (transaction db) (log db)
     end, inr tt).

(** [gift.save({ session: s })] for the gift document with identifier
    [id]: the validators run, then the write is handed to the driver. *)
Definition Gift_save (s : SessionOption) (id : string) (g : Gift) : M unit :=
  record (op_save_gift id) ;;;
  match GiftSchema_validate g with
  | [] =>
      match s with
      | next_auth_session => throw TypeError
      | _ => write_gift s id g
      end
  | paths => throw (ValidationError paths)
  end.

(** [Order.findById(id)] *)
Definition Order_findById (id : string) : M (option Order) :=
  record (op_find_order id) ;;;
  fun db => (db, inr (orders (committed db) !! id)).

Definition write_order (s : SessionOption) (oid : string) (o : Order)
  : M unit :=
  fun db =>
    (match enrolled s db with
     | Some w =>
         mkDb (committed db)
              (Some (mkStore (gifts w) (<[oid := o]> (orders w))))
              (log db)
     | None =>
         mkDb (mkStore (gifts (committed db))
                       (<[oid := o]> (orders (committed db))))
              (transaction db) (log db)
     end, inr tt).

(** The tracking events as the pre-save hook hands them to the schema. *)
Definition tracking_data (evs : list TrackingEvent)
  : list TrackingEventInput :=
  map (fun e => mkEventInput (event_status e) (Some (IsDate (timestamp e)))
                  (description e)) evs.

(** [this.deliveryPartner] in the pre-save hook.  [deliveryPartner] and
    [deliveryPartner.currentLocation] are nested paths of the schema:
    reading one yields an object, never [undefined], whose leaves are
    [undefined] where the document has no value. *)
Definition partner_data (dp : option DeliveryPartner) : DeliveryPartnerInput :=
  match dp with
  | Some p =>
      mkPartnerInput (Some (partner_name p)) (Some (phone p))
        (Some match currentLocation p with
              | Some l => mkLocationInput (Some (lat l)) (Some (lng l))
              | None => mkLocationInput None None
              end)
  | None => mkPartnerInput None None (Some (mkLocationInput None None))
  end.

(** The object built by the pre-save hook of [OrderSchema] from the
    document ([orderData]). *)
Definition orderData (o : Order) : OrderInput :=
  mkOrderInput
    (Some (user o))
    (mkRecipientInput (name (recipient o)) (age (recipient o))
       (Gender_str (gender (recipient o))) (occasion (recipient o)))
    (map (fun item => mkItem (gift item) (quantity item) (price item))
       (items o))
    (deliveryAddress o)
    (mkPaymentInput (PaymentMethod_str (method (paymentInfo o)))
       (Some (PaymentStatus_str (payment_status (paymentInfo o))))
       (transactionId (paymentInfo o)))
    (Some (OrderStatus_str (status o)))
    (Some (IsDate (deliveryTime o)))
    (specialInstructions o)
    (totalAmount o)
    (deliveryFee o)
    (tax o)
    (Some (discount o))
    (Some (partner_data (deliveryPartner o)))
    (Some (tracking_data (tracking o))).

(** [OrderSchema.pre("save", ...)]: [OrderValidationSchema.parse(orderData)];
    a [ZodError] is passed to [next] and fails the save. *)
Definition OrderSchema_pre_save (now : Date) (o : Order) : M unit :=
  match zod_parse (OrderValidationSchema now (orderData o)) with
  | inr _ => ret tt
  | inl issues => throw (ZodError issues)
  end.

(** [order.save({ session: s })] for the document with [_id] [oid].  The
    schema validators run first, then the pre-save hook, then the write is
    handed to the driver: the document is inserted when it is new ([isNew],
    a clash of identifiers is a duplicate-key error), replaced otherwise. *)
Definition Order_save (now : Date) (s : SessionOption) (isNew : bool)
    (oid : string) (o : Order) : M unit :=
  record (op_save_order oid) ;;;
  match OrderSchema_validate o with
  | [] =>
      OrderSchema_pre_save now o ;;;
      match s with
      | next_auth_session => throw TypeError
      | _ =>
          fun db =>
            if isNew && bool_decide (is_Some (orders (committed db) !! oid))
            then (db, inl (DuplicateKeyError oid))
            else write_order s oid o db
      end
  | paths => throw (ValidationError paths)
  end.

(** ** Requests and responses *)

Record SessionUser := mkSessionUser { id : string }.

(** The value of [getServerSession(authOptions)]. *)
Record Session := mkSession { session_user : option SessionUser }.

(** [session?.user?.id] when it is truthy. *)
Definition caller_id (session : option Session) : option string :=
  match session with
  | Some (mkSession (Some u)) =>
      if String.eqb (id u) "" then None else Some (id u)
  | _ => None
  end.

Inductive Payload :=
  | body_order (_id : string) (order : Order)  (* { success: true, order } *)
  | body_order_populated (_id : string) (order : Order)
      (populated : list bool)         (* the same, after [populate] *)
  | body_errors (errors : list string)  (* { success: false, errors } *)
  | body_error (error : string)         (* { success: false, error } *)
  | body_error_message (e : Exn).       (* { success: false, error: error.message } *)

Record Response := mkResponse {
  http_status : Z;
  payload : Payload;
}.

(** What a handler reads from its environment: the clock ([new Date()]),
    read once per request, the identifier given to a new document, and
    the local time of the server: [setHours_plus_one d] is the date that
    [d.setHours(d.getHours() + 1)] leaves in [d] (an hour later, except
    across a change of the local clock). *)
Record Env := mkEnv {
  now : Date;
  new_id : string;
  setHours_plus_one : Date -> Date;
}.

(** ** Order placement: [POST /api/orders] *)

Record PlaceRequest := mkPlaceRequest {
  place_session : option Session;
  place_body : OrderInput;
}.

(** Truthiness of [body.deliveryTime]. *)
Definition truthy_date (v : option JsDate) : bool :=
  match v with
  | None => false
  | Some (NotDate raw) => negb (String.eqb raw "")
  | Some (IsDate _) => true
  end.

(** The body after [body.user = session.user.id] and the default for
    [body.deliveryTime]. *)
Definition stamped_body (env : Env) (uid : string) (body : OrderInput)
  : OrderInput :=
  mkOrderInput
    (Some uid)
    (in_recipient body) (in_items body) (in_deliveryAddress body)
    (in_paymentInfo body) (in_status body)
    (if truthy_date (in_deliveryTime body) then in_deliveryTime body
     else Some (IsDate (setHours_plus_one env (now env))))
    (in_specialInstructions body) (in_totalAmount body)
    (in_deliveryFee body) (in_tax body) (in_discount body)
    (in_deliveryPartner body) (in_tracking body).

(** [new Order(validation.data)] *)
Definition new_Order (d : OrderData) : Order :=
  mkOrder (d_user d) (d_recipient d) (d_items d) (d_deliveryAddress d)
    (d_paymentInfo d) (d_status d) (d_deliveryTime d)
    (d_specialInstructions d) (d_totalAmount d) (d_deliveryFee d) (d_tax d)
    (d_discount d) (d_deliveryPartner d)
    (match d_tracking d with Some evs => evs | None => [] end).

Definition set_tracking (o : Order) (evs : list TrackingEvent) : Order :=
  mkOrder (user o) (recipient o) (items o) (deliveryAddress o)
    (paymentInfo o) (status o) (deliveryTime o) (specialInstructions o)
    (totalAmount o) (deliveryFee o) (tax o) (discount o) (deliveryPartner o)
    evs.

Definition out_of_stock (item : OrderItem) : Exn :=
  Error ("Gift " +:+ gift item +:+ " is out of stock or unavailable").

(** One turn of the loop over [validation.data.items].  The read carries
    [orderSession]; the save is [gift.save({ session })], and [session] is
    in this handler the next-auth session of the caller.  The new count is
    held in memory only; it is written here as the exact difference (the
    double that JavaScript computes is zero, and is negative, exactly when
    the exact difference is). *)
Definition reserve_item (item : OrderItem) : M unit :=
  found <- Gift_findById client_session (gift item) ;;
  match found with
  | None => throw (out_of_stock item)
  | Some g =>
      if negb (inStock g) || Qlt_bool (stockCount g) (quantity item)
      then throw (out_of_stock item)
      else
        let count := stockCount g - quantity item in
        Gift_save next_auth_session (gift item)
          (mkGift (if Qeq_bool count 0 then false else inStock g) count)
  end.

Fixpoint reserve_items (its : list OrderItem) : M unit :=
  match its with
  | [] => ret tt
  | item :: rest => reserve_item item ;;; reserve_items rest
  end.

(** The body of the inner [try]; [order.save({ session })] names the
    next-auth session as well. *)
Definition place_in_transaction (env : Env) (data : OrderData) : M Response :=
  reserve_items (d_items data) ;;;
  let order :=
    set_tracking (new_Order data)
      [mkEvent "pending" (now env) (Some "Order received")] in
  Order_save (now env) next_auth_session true (new_id env) order ;;;
  commitTransaction ;;;
  ret (mkResponse 201 (body_order (new_id env) order)).

(** [POST] *)
Definition POST (env : Env) (req : PlaceRequest) : M Response :=
  try_catch
    (connectToDatabase ;;;
     match caller_id (place_session req) with
     | None => ret (mkResponse 401 (body_error "Authentication required"))
     | Some uid =>
         let body := stamped_body env uid (place_body req) in
         match validateData (OrderValidationSchema (now env) body) with
         | inl errors => ret (mkResponse 400 (body_errors errors))
         | inr data =>
             startSession ;;;
             startTransaction ;;;
             try_finally
               (try_catch (place_in_transaction env data)
                  (fun error => abortTransaction ;;; throw error))
               endSession
         end
     end)
    (fun error => ret (mkResponse 500 (body_error_message error))).

(** ** Reading and updating one order: [/api/orders/[id]] *)

Record GetRequest := mkGetRequest {
  get_session : option Session;
  get_id : string;
}.

(** [.populate({ path: "items.gift", select: ... })] on a found order:
    one query on the gifts for the references of the line items (none when
    there is no line item), after which each reference is replaced by the
    gift found, or by [null].  The selected fields belong to the catalogue
    and not to the stock fields kept here: what is recorded for each line
    item is whether its gift was found. *)
Definition populate_items_gift (order : Order) : M (list bool) :=
  match items order with
  | [] => ret []
  | line_items =>
      record (op_populate_gifts (map gift line_items)) ;;;
      fun db =>
        (db, inr (map (fun item =>
                         bool_decide
                           (is_Some (gifts (committed db) !! gift item)))
                    line_items))
  end.

(** [Order.findById(id).populate(...)] *)
Definition Order_findById_populate (id : string)
  : M (option (Order * list bool)) :=
  found <- Order_findById id ;;
  match found with
  | None => ret None
  | Some order =>
      populated <- populate_items_gift order ;;
      ret (Some (order, populated))
  end.

Definition GET (req : GetRequest) : M Response :=
  try_catch
    (connectToDatabase ;;;
     match caller_id (get_session req) with
     | None => ret (mkResponse 401 (body_error "Authentication required"))
     | Some uid =>
         found <- Order_findById_populate (get_id req) ;;
         match found with
         | None => ret (mkResponse 404 (body_error "Order not found"))
         | Some (order, populated) =>
             if negb (String.eqb (user order) uid)
             then ret (mkResponse 403 (body_error "Access denied"))
             else ret (mkResponse 200
                         (body_order_populated (get_id req) order populated))
         end
     end)
    (fun _ => ret (mkResponse 500 (body_error "Failed to fetch order"))).

(** A JSON value as [PUT] uses it.  Of a value that is neither [null] nor
    a string (a number, a boolean, an array, an object) the handler
    observes its truthiness and, when the value is assigned to a [String]
    path of the document, what the caster of Mongoose makes of it: a
    string (the text of a number or a boolean), or a cast error, which
    validation reports when the document is saved. *)
Inductive Json :=
  | json_null
  | json_string (s : string)
  | json_other (truthy : bool) (cast : option string).

(** The fields of the request body that [PUT] reads; [None] is
    [undefined], a field that the body does not have. *)
Record Patch := mkPatch {
  patch_specialInstructions : option Json;
  patch_status : option Json;
  patch_cancellationReason : option Json;
}.

Record PutRequest := mkPutRequest {
  put_session : option Session;
  put_id : string;
  put_body : Patch;
}.

(** [["pending", "confirmed"].includes(order.status)] *)
Definition updatable (s : OrderStatus) : bool :=
  match s with
  | pending | confirmed => true
  | _ => false
  end.

Definition set_specialInstructions (o : Order) (v : option string) : Order :=
  mkOrder (user o) (recipient o) (items o) (deliveryAddress o)
    (paymentInfo o) (status o) (deliveryTime o) v
    (totalAmount o) (deliveryFee o) (tax o) (discount o) (deliveryPartner o)
    (tracking o).

Definition set_status (o : Order) (s : OrderStatus) : Order :=
  mkOrder (user o) (recipient o) (items o) (deliveryAddress o)
    (paymentInfo o) s (deliveryTime o) (specialInstructions o)
    (totalAmount o) (deliveryFee o) (tax o) (discount o) (deliveryPartner o)
    (tracking o).

(** The document in memory after assignments: the order, and the paths
    that were assigned a value which [save] rejects (a cast error, found
    by validation, or [null] instructions, refused by the pre-save hook).
    Such a value is never stored; the order holds the previous one. *)
Record Assigned := mkAssigned {
  document : Order;
  rejected : list string;
}.

(** [order.specialInstructions = v] *)
Definition assign_specialInstructions (a : Assigned) (v : Json) : Assigned :=
  match v with
  | json_string text | json_other _ (Some text) =>
      mkAssigned (set_specialInstructions (document a) (Some text))
        (rejected a)
  | json_null | json_other _ None =>
      mkAssigned (document a) (rejected a ++ ["specialInstructions"])%list
  end.

(** [body.status === "canceled"] *)
Definition asks_cancellation (body : Patch) : bool :=
  match patch_status body with
  | Some (json_string s) => String.eqb s "canceled"
  | _ => false
  end.

(** [body.cancellationReason || "Canceled by customer"], as the [String]
    path [description] of the new tracking event receives it: a string, or
    [None] for a cast error. *)
Definition cancellation_description (reason : option Json) : option string :=
  match reason with
  | Some (json_string r) =>
      Some (if String.eqb r "" then "Canceled by customer" else r)
  | Some (json_other true cast) => cast
  | Some (json_other false _) | Some json_null | None =>
      Some "Canceled by customer"
  end.

(** [order.status = "canceled"; order.tracking.push({ ... })] *)
Definition cancel (t : Date) (reason : option Json) (a : Assigned) : Assigned :=
  let order := set_status (document a) canceled in
  match cancellation_description reason with
  | Some text =>
      mkAssigned
        (set_tracking order
           (tracking order ++ [mkEvent "canceled" t (Some text)])%list)
        (rejected a)
  | None =>
      mkAssigned
        (set_tracking order
           (tracking order ++ [mkEvent "canceled" t None])%list)
        (rejected a
         ++ ["tracking." +:+ pretty (length (tracking order))
             +:+ ".description"])%list
  end.

(** The two conditional updates of [PUT], applied to the document in
    memory. *)
Definition apply_patch (t : Date) (body : Patch) (order : Order) : Assigned :=
  let a := mkAssigned order [] in
  let a :=
    match patch_specialInstructions body with
    | Some v => assign_specialInstructions a v
    | None => a
    end in
  if asks_cancellation body && updatable (status (document a))
  then cancel t (patch_cancellationReason body) a
  else a.

(** [order.save()] for the document in memory: a rejected assignment
    fails the save; the handler does not tell the errors of a save
    apart. *)
Definition Assigned_save (now : Date) (oid : string) (a : Assigned) : M unit :=
  match rejected a with
  | [] => Order_save now no_session false oid (document a)
  | paths => record (op_save_order oid) ;;; throw (ValidationError paths)
  end.

Definition PUT (env : Env) (req : PutRequest) : M Response :=
  try_catch
    (connectToDatabase ;;;
     match caller_id (put_session req) with
     | None => ret (mkResponse 401 (body_error "Authentication required"))
     | Some uid =>
         found <- Order_findById (put_id req) ;;
         match found with
         | None => ret (mkResponse 404 (body_error "Order not found"))
         | Some order =>
             if negb (String.eqb (user order) uid)
             then ret (mkResponse 403 (body_error "Access denied"))
             else if negb (updatable (status order))
             then ret (mkResponse 400
                         (body_error "Order cannot be updated at this stage"))
             else
               let a := apply_patch (now env) (put_body req) order in
               Assigned_save (now env) (put_id req) a ;;;
               ret (mkResponse 200 (body_order (put_id req) (document a)))
         end
     end)
    (fun _ => ret (mkResponse 500 (body_error "Failed to update order"))).

(** ** Tracking of one order: [GET /api/orders/[id]/tracking]

    (second part of [src/app/api/auth/register/route.ts]) *)

(** The fields of the tracking response. *)
Record TrackingInfo := mkTrackingInfo {
  orderId : string;
  info_status : OrderStatus;
  info_tracking : list TrackingEvent;
  info_deliveryPartner : option DeliveryPartner;
  estimatedDelivery : Date;
  info_recipient : Recipient;
  info_deliveryAddress : DeliveryAddress;
}.

Inductive TrackingPayload :=
  | tracking_info (info : TrackingInfo)  (* { success: true, orderId, ... } *)
  | tracking_error (error : string).     (* { success: false, error } *)

Record TrackingResponse := mkTrackingResponse {
  tracking_http_status : Z;
  tracking_payload : TrackingPayload;
}.

Definition GET_tracking (req : GetRequest) : M TrackingResponse :=
  try_catch
    (connectToDatabase ;;;
     match caller_id (get_session req) with
     | None =>
         ret (mkTrackingResponse 401 (tracking_error "Authentication required"))
     | Some uid =>
         found <- Order_findById (get_id req) ;;
         match found with
         | None => ret (mkTrackingResponse 404 (tracking_error "Order not found"))
         | Some order =>
             if negb (String.eqb (user order) uid)
             then ret (mkTrackingResponse 403 (tracking_error "Access denied"))
             else
               ret (mkTrackingResponse 200
                      (tracking_info
                         (mkTrackingInfo (get_id req) (status order)
                            (tracking order) (deliveryPartner order)
                            (deliveryTime order) (recipient order)
                            (deliveryAddress order))))
         end
     end)
    (fun _ =>
       ret (mkTrackingResponse 500
              (tracking_error "Failed to fetch order tracking"))).

(** ** The API middleware ([src/app/api/middleware.ts]) *)

(** Paths that do not require authentication. *)
Definition publicPaths : list string :=
  ["/api/auth/login"; "/api/auth/register"; "/api/gifts"].

(** [path.startsWith(p)] *)
Definition startsWith (path p : string) : bool := String.prefix p path.

Definition isPublic (path method : string) : bool :=
  if existsb (fun p => startsWith path p) publicPaths
  then
    if startsWith path "/api/gifts" && negb (String.eqb method "GET")
    then false
    else true
  else false.

Inductive MiddlewareResult :=
  | middleware_next                                (* NextResponse.next() *)
  | middleware_unauthorized                        (* 401, "Authentication required" *)
  | middleware_redirect (callbackUrl : string).    (* redirect to /login?callbackUrl=... *)

Record MiddlewareRequest := mkMiddlewareRequest {
  pathname : string;          (* req.nextUrl.pathname *)
  req_method : string;        (* req.method *)
  req_url : string;           (* req.url *)
  has_token : bool;           (* whether getToken(...) found a token *)
}.

Section Middleware.
(** [encodeURI], a function of the platform. *)
Variable encodeURI : string -> string.

Definition middleware (req : MiddlewareRequest) : MiddlewareResult :=
  if isPublic (pathname req) (req_method req) then middleware_next
  else if negb (has_token req)
  then
    if startsWith (pathname req) "/api" then middleware_unauthorized
    else middleware_redirect (encodeURI (req_url req))
  else middleware_next.
End Middleware.

(** ** The gift model ([src/global/models/Gift.ts]) *)

Inductive Category :=
  toys | books | clothes | electronics | art | outdoors | accessories
  | educational | other.

Definition parse_Category (s : string) : option Category :=
  if String.eqb s "toys" then Some toys
  else if String.eqb s "books" then Some books
  else if String.eqb s "clothes" then Some clothes
  else if String.eqb s "electronics" then Some electronics
  else if String.eqb s "art" then Some art
  else if String.eqb s "outdoors" then Some outdoors
  else if String.eqb s "accessories" then Some accessories
  else if String.eqb s "educational" then Some educational
  else if String.eqb s "other" then Some other
  else None.

(** [ageRange: { min, max }] *)
Record AgeRange := mkAgeRange {
  ageRange_min : Q;
  ageRange_max : Q;
}.

Record Review := mkReview {
  userId : string;
  review_rating : Q;
  comment : option string;
  date : Date;
}.

(** A gift document ([IGift]).  [stock] groups [inStock] and [stockCount],
    the two fields that the order routes read and write. *)
Record GiftDoc := mkGiftDoc {
  gift_name : string;
  gift_description : string;
  gift_price : Q;
  images : list string;
  category : Category;
  ageRange : AgeRange;
  gift_gender : Gender;
  tags : list string;
  stock : Gift;
  estimatedDeliveryTime : Q;
  rating : Q;
  reviews : list Review;
  isPopular : bool;
  gift_discount : Q;
}.

(** A gift and a review before validation. *)
Record ReviewInput := mkReviewInput {
  in_userId : string;
  in_review_rating : Q;
  in_comment : option string;
  in_date : option JsDate;
}.

Record GiftInput := mkGiftInput {
  in_gift_name : string;
  in_gift_description : string;
  in_price : Q;
  in_images : list string;
  in_category : string;
  in_ageRange : AgeRange;
  in_gift_gender : option string;
  in_tags : option (list string);
  in_inStock : option bool;
  in_stockCount : option Q;
  in_estimatedDeliveryTime : option Q;
  in_rating : option Q;
  in_reviews : option (list ReviewInput);
  in_isPopular : option bool;
  in_gift_discount : option Q;
}.

(** The parsed output of [GiftValidationSchema].  A key that is optional
    and absent from the input is absent from the output. *)
Record GiftData := mkGiftData {
  gd_name : string;
  gd_description : string;
  gd_price : Q;
  gd_images : list string;
  gd_category : Category;
  gd_ageRange : AgeRange;
  gd_gender : Gender;
  gd_tags : option (list string);
  gd_inStock : bool;
  gd_stockCount : Q;
  gd_estimatedDeliveryTime : Q;
  gd_rating : Q;
  gd_reviews : option (list Review);
  gd_isPopular : bool;
  gd_discount : Q;
}.

(** [z.boolean()], [z.number().max(hi)], [z.number().min(lo).max(hi)] *)
Definition z_boolean (path : string) (b : bool) : Zod bool := zod_ok b.

Definition z_number_max (hi : Q) (path : string) (x : Q) : Zod Q :=
  zod_check (Qle_bool x hi) path x.

Definition in_range (lo hi x : Q) : bool := Qle_bool lo x && Qle_bool x hi.

Definition z_number_range (lo hi : Q) (path : string) (x : Q) : Zod Q :=
  zod_check (in_range lo hi x) path x.

Section GiftSchemas.
(** The clock read by [z.date().default(() => new Date())]. *)
Variable now : Date.
(** [z.string().url()]: whether [new URL(s)] succeeds. *)
Variable is_url : string -> bool.
(** The check [.min(z.number().min(0) as unknown as number, ...)] on
    [ageRange.max]: its bound is a schema object, not a number, and the
    check is the library's comparison of the value with that object. *)
Variable max_age_check : Q -> bool.

Definition z_string_url (path : string) (s : string) : Zod string :=
  zod_check (is_url s) path s.

Definition ReviewSchema (p : string) (r : ReviewInput) : Zod Review :=
  mkReview
    <$$> z_string_min 1 (p +:+ ".userId") (in_userId r)
    <**> z_number_range 1 5 (p +:+ ".rating") (in_review_rating r)
    <**> zod_optional z_string (p +:+ ".comment") (in_comment r)
    <**> zod_default now z_date (p +:+ ".date") (in_date r).

Definition AgeRangeSchema (p : string) (a : AgeRange) : Zod AgeRange :=
  mkAgeRange
    <$$> z_number_nonnegative (p +:+ ".min") (ageRange_min a)
    <**> zod_check (max_age_check (ageRange_max a)) (p +:+ ".max")
           (ageRange_max a).

(** The predicate handed to [AgeRangeSchema.refine]: [data.max >= data.min]. *)
Definition max_not_below_min (a : AgeRange) : bool :=
  Qle_bool (ageRange_min a) (ageRange_max a).

Definition GiftValidationSchema (g : GiftInput) : Zod GiftData :=
  mkGiftData
    <$$> z_string_min 2 "name" (in_gift_name g)
    <**> z_string_min 10 "description" (in_gift_description g)
    <**> z_number_positive "price" (in_price g)
    <**> zod_array_min 1 z_string_url "images" (in_images g)
    <**> z_enum parse_Category "category" (in_category g)
    <**> zod_refine (AgeRangeSchema "ageRange" (in_ageRange g))
           max_not_below_min "ageRange.max"
    <**> zod_default unisex (z_enum parse_Gender) "gender" (in_gift_gender g)
    <**> zod_optional (zod_array z_string) "tags" (in_tags g)
    <**> zod_default true z_boolean "inStock" (in_inStock g)
    <**> zod_default 0 z_number_nonnegative "stockCount" (in_stockCount g)
    <**> zod_default 60 (z_number_max 60) "estimatedDeliveryTime"
           (in_estimatedDeliveryTime g)
    <**> zod_default 0 (z_number_range 0 5) "rating" (in_rating g)
    <**> zod_optional (zod_array ReviewSchema) "reviews" (in_reviews g)
    <**> zod_default false z_boolean "isPopular" (in_isPopular g)
    <**> zod_default 0 (z_number_range 0 100) "discount"
           (in_gift_discount g).
End GiftSchemas.

(** The validators of the Mongoose [GiftSchema] that a typed document can
    violate: [required] on the strings (an empty string fails it), the
    [min] and [max] bounds, and the custom validators of [images] and
    [ageRange.max].  The stock fields are checked as in [GiftSchema_validate].
    [save] runs them on the whole document. *)
Definition GiftSchema_validate_document (g : GiftDoc) : list string :=
  ((if String.eqb (gift_name g) "" then ["name"] else [])
   ++ (if String.eqb (gift_description g) "" then ["description"] else [])
   ++ (if Qle_bool 0 (gift_price g) then [] else ["price"])
   ++ (if (0 <? length (images g))%nat then [] else ["images"])
   ++ (if Qle_bool 0 (ageRange_min (ageRange g)) then []
       else ["ageRange.min"])
   ++ (if Qle_bool (ageRange_min (ageRange g)) (ageRange_max (ageRange g))
       then [] else ["ageRange.max"])
   ++ GiftSchema_validate (stock g)
   ++ (if Qle_bool (estimatedDeliveryTime g) 60 then []
       else ["estimatedDeliveryTime"])
   ++ (if in_range 0 5 (rating g) then [] else ["rating"])
   ++ concat (imap (fun i r =>
        if in_range 1 5 (review_rating r) then []
        else ["reviews." +:+ pretty i +:+ ".rating"]) (reviews g))
   ++ (if in_range 0 100 (gift_discount g) then [] else ["discount"]))%list.

(** ** The gift routes: [POST /api/gifts] (first part of
    [src/app/api/gifts/route.ts]) and [/api/gifts/[id]] (second part of
    [src/app/api/middleware.ts])

    The gift collection with all the fields of its documents.  The order
    routes see its stock fields: [stock_view].  A handler takes the
    catalogue to the catalogue after the call and the response;
    [connectToDatabase] changes neither.  A [save] that throws is caught by
    the handler's [catch], which answers 500. *)
Abbreviation Catalogue := (gmap string GiftDoc).

Definition stock_view (c : Catalogue) : gmap string Gift := stock <$> c.

Inductive GiftPayload :=
  | body_gift (_id : string) (gift : GiftDoc)  (* { success: true, gift } *)
  | body_gift_errors (errors : list string)    (* { success: false, errors } *)
  | body_gift_error (error : string)           (* { success: false, error } *)
  | body_message (message : string).           (* { success: true, message } *)

Record GiftResponse := mkGiftResponse {
  gift_http_status : Z;
  gift_payload : GiftPayload;
}.

Record GiftPostRequest := mkGiftPostRequest {
  gift_post_session : option Session;
  gift_post_body : GiftInput;
}.

Record GiftPutRequest := mkGiftPutRequest {
  gift_put_session : option Session;
  gift_put_id : string;
  gift_put_body : GiftInput;
}.

Section GiftRoutes.
Variable is_url : string -> bool.
Variable max_age_check : Q -> bool.
(** The [trim: true] setter of [name]: [String.prototype.trim]. *)
Variable trim : string -> string.

(** [new Gift(validation.data)]: the setters run ([name] is trimmed) and
    the array paths that the data leave out start empty. *)
Definition new_Gift (d : GiftData) : GiftDoc :=
  mkGiftDoc (trim (gd_name d)) (gd_description d) (gd_price d) (gd_images d)
    (gd_category d) (gd_ageRange d) (gd_gender d) (default [] (gd_tags d))
    (mkGift (gd_inStock d) (gd_stockCount d)) (gd_estimatedDeliveryTime d)
    (gd_rating d) (default [] (gd_reviews d)) (gd_isPopular d)
    (gd_discount d).

(** [Object.assign(gift, validation.data)]: every key of the data is set
    on the document; [tags] and [reviews] are keys of the data only when
    the body had them. *)
Definition Object_assign (g : GiftDoc) (d : GiftData) : GiftDoc :=
  mkGiftDoc (trim (gd_name d)) (gd_description d) (gd_price d) (gd_images d)
    (gd_category d) (gd_ageRange d) (gd_gender d)
    (default (tags g) (gd_tags d))
    (mkGift (gd_inStock d) (gd_stockCount d)) (gd_estimatedDeliveryTime d)
    (gd_rating d) (default (reviews g) (gd_reviews d)) (gd_isPopular d)
    (gd_discount d).

(** [gift.save()] for the document with [_id] [gid]: the validators run,
    then the document is inserted (when new) or replaced. *)
Definition GiftDoc_save (isNew : bool) (gid : string) (g : GiftDoc)
    (c : Catalogue) : Exn + Catalogue :=
  match GiftSchema_validate_document g with
  | [] =>
      if isNew && bool_decide (is_Some (c !! gid))
      then inl (DuplicateKeyError gid)
      else inr (<[gid := g]> c)
  | paths => inl (ValidationError paths)
  end.

(** [POST]: create a gift. *)
Definition POST_gift (env : Env) (req : GiftPostRequest) (c : Catalogue)
  : Catalogue * GiftResponse :=
  match caller_id (gift_post_session req) with
  | None =>
      (c, mkGiftResponse 401 (body_gift_error "Authentication required"))
  | Some _ =>
      match validateData (GiftValidationSchema (now env) is_url
                            max_age_check (gift_post_body req)) with
      | inl errors => (c, mkGiftResponse 400 (body_gift_errors errors))
      | inr data =>
          let gift := new_Gift data in
          match GiftDoc_save true (new_id env) gift c with
          | inr c' =>
              (c', mkGiftResponse 201 (body_gift (new_id env) gift))
          | inl _ =>
              (c, mkGiftResponse 500 (body_gift_error "Failed to create gift"))
          end
      end
  end.

(** [GET]: read one gift; no session is asked for. *)
Definition GET_gift (gid : string) (c : Catalogue) : GiftResponse :=
  match c !! gid with
  | None => mkGiftResponse 404 (body_gift_error "Gift not found")
  | Some gift => mkGiftResponse 200 (body_gift gid gift)
  end.

(** [PUT]: replace the fields of one gift. *)
Definition PUT_gift (env : Env) (req : GiftPutRequest) (c : Catalogue)
  : Catalogue * GiftResponse :=
  match caller_id (gift_put_session req) with
  | None =>
      (c, mkGiftResponse 401 (body_gift_error "Authentication required"))
  | Some _ =>
      match c !! gift_put_id req with
      | None => (c, mkGiftResponse 404 (body_gift_error "Gift not found"))
      | Some gift =>
          match validateData (GiftValidationSchema (now env) is_url
                                max_age_check (gift_put_body req)) with
          | inl errors => (c, mkGiftResponse 400 (body_gift_errors errors))
          | inr data =>
              let gift := Object_assign gift data in
              match GiftDoc_save false (gift_put_id req) gift c with
              | inr c' =>
                  (c', mkGiftResponse 200 (body_gift (gift_put_id req) gift))
              | inl _ =>
                  (c, mkGiftResponse 500
                        (body_gift_error "Failed to update gift"))
              end
          end
      end
  end.

(** [DELETE]: [Gift.findByIdAndDelete(params.id)]. *)
Definition DELETE_gift (req : GetRequest) (c : Catalogue)
  : Catalogue * GiftResponse :=
  match caller_id (get_session req) with
  | None =>
      (c, mkGiftResponse 401 (body_gift_error "Authentication required"))
  | Some _ =>
      match c !! get_id req with
      | None => (c, mkGiftResponse 404 (body_gift_error "Gift not found"))
      | Some _ =>
          (delete (get_id req) c,
           mkGiftResponse 200 (body_message "Gift deleted successfully"))
      end
  end.
End GiftRoutes.

(** ** Vocabulary of the properties *)

(** What [OrderItemSchema] asks of a line item. *)
Definition item_ok (it : OrderItem) : Prop :=
  (1 <= String.length (gift it))%nat /\ 0 < quantity it /\ 0 <= price it.




(** The check of the amounts that the code computes, on a document. *)
Definition order_amounts_match (o : Order) : bool :=
  amounts_match (items o) (deliveryFee o) (tax o) (discount o)
    (totalAmount o).

(** The stock check of the loop fails for a line item, given the gift
    found. *)
Definition unavailable (found : option Gift) (item : OrderItem) : bool :=
  match found with
  | None => true
  | Some g => negb (inStock g) || Qlt_bool (stockCount g) (quantity item)
  end.

(** The gift document that the loop hands to [save] for a line item it
    can serve. *)
Definition decremented (g : Gift) (item : OrderItem) : Gift :=
  mkGift
    (if Qeq_bool (stockCount g - quantity item) 0 then false else inStock g)
    (stockCount g - quantity item).

(** What [populate] answers for the line items of an order, and the
    query it issues. *)
Definition populated (stored : gmap string Gift) (o : Order) : list bool :=
  map (fun item => bool_decide (is_Some (stored !! gift item))) (items o).

Definition populate_log (o : Order) : list DbOp :=
  match items o with
  | [] => []
  | line_items => [op_populate_gifts (map gift line_items)]
  end.

(** The exception that ends the loop at its first line item. *)
Definition first_item_error (found : option Gift) (item : OrderItem) : Exn :=
  if unavailable found item then out_of_stock item else TypeError.

(** The exception raised by [order.save()], if any, given the orders
    already stored. *)
Definition save_outcome (now : Date) (isNew : bool)
    (stored : gmap string Order) (oid : string) (o : Order) : option Exn :=
  match OrderSchema_validate o with
  | [] =>
      match zod_parse (OrderValidationSchema now (orderData o)) with
      | inr _ =>
          if isNew && bool_decide (is_Some (stored !! oid))
          then Some (DuplicateKeyError oid)
          else None
      | inl issues => Some (ZodError issues)
      end
  | paths => Some (ValidationError paths)
  end.

(** What [TrackingEventSchema] asks of an event and what it yields; what
    it asks of an event of a stored document. *)
Definition event_parsed (now : Date) (x : TrackingEventInput)
    (y : TrackingEvent) : Prop :=
  (1 <= String.length (in_event_status x))%nat
  /\ event_status y = in_event_status x
  /\ match in_timestamp x with
     | None => timestamp y = now
     | Some (IsDate d) => timestamp y = d
     | Some (NotDate _) => False
     end
  /\ description y = in_description x.

Definition event_ok (e : TrackingEvent) : Prop :=
  (1 <= String.length (event_status e))%nat.

(** [/^\d{10}$/] *)
Definition ten_digits (s : string) : bool :=
  forallb is_digit (list_ascii_of_string s)
  && (10 <=? String.length s)%nat && (String.length s <=? 10)%nat.

(** A document with a complete delivery partner: a name, a phone number
    of ten digits and a location. *)
Definition partner_complete (o : Order) : Prop :=
  exists p l,
    deliveryPartner o = Some p /\ currentLocation p = Some l
    /\ ten_digits (phone p) = true.

(** The pre-save hook accepts the document. *)
Definition hook_accepts (now : Date) (o : Order) : Prop :=
  exists d, zod_parse (OrderValidationSchema now (orderData o)) = inr d.

(** An order passes [save]: the schema validators find nothing and the
    pre-save hook accepts the document. *)
Definition persistable (o : Order) : Prop :=
  OrderSchema_validate o = [] /\ exists now, hook_accepts now o.

(** Whether the save of [PUT] goes through, for the document in memory. *)
Definition saves (now : Date) (a : Assigned) : bool :=
  match rejected a with
  | [] =>
      match save_outcome now false ∅ "" (document a) with
      | None => true
      | Some _ => false
      end
  | _ => false
  end.


(** The gift invariant of the data model: [inStock == (stockCount > 0)]. *)
Definition gift_inv (g : Gift) : Prop :=
  inStock g = true <-> 0 < stockCount g.

(** What the schemas ask of a stored review and of a stored gift. *)
Definition review_ok (r : Review) : Prop :=
  userId r <> "" /\ 1 <= review_rating r /\ review_rating r <= 5.

Definition gift_well_formed (is_url : string -> bool) (g : GiftDoc) : Prop :=
  gift_name g <> ""
  /\ (10 <= String.length (gift_description g))%nat
  /\ 0 < gift_price g
  /\ images g <> []
  /\ Forall (fun u => is_url u = true) (images g)
  /\ 0 <= ageRange_min (ageRange g)
  /\ ageRange_min (ageRange g) <= ageRange_max (ageRange g)
  /\ 0 <= stockCount (stock g)
  /\ estimatedDeliveryTime g <= 60
  /\ 0 <= rating g /\ rating g <= 5
  /\ Forall review_ok (reviews g)
  /\ 0 <= gift_discount g /\ gift_discount g <= 100.

(** The catalogues that the gift routes build, starting without gifts. *)
Inductive catalogue_reachable (is_url : string -> bool)
    (max_age_check : Q -> bool) (trim : string -> string)
  : Catalogue -> Prop :=
  | catalogue_start : catalogue_reachable is_url max_age_check trim ∅
  | catalogue_POST (env : Env) (req : GiftPostRequest) (c : Catalogue) :
      catalogue_reachable is_url max_age_check trim c ->
      catalogue_reachable is_url max_age_check trim
        (POST_gift is_url max_age_check trim env req c).1
  | catalogue_PUT (env : Env) (req : GiftPutRequest) (c : Catalogue) :
      catalogue_reachable is_url max_age_check trim c ->
      catalogue_reachable is_url max_age_check trim
        (PUT_gift is_url max_age_check trim env req c).1
  | catalogue_DELETE (req : GetRequest) (c : Catalogue) :
      catalogue_reachable is_url max_age_check trim c ->
      catalogue_reachable is_url max_age_check trim (DELETE_gift req c).1.

(** The document that [new Gift(data)] and [Object.assign(gift, data)]
    build from the data, given the tags [ts] and the reviews [rs]. *)
Definition built (trim : string -> string) (d : GiftData)
    (ts : list string) (rs : list Review) : GiftDoc :=
  mkGiftDoc (trim (gd_name d)) (gd_description d) (gd_price d) (gd_images d)
    (gd_category d) (gd_ageRange d) (gd_gender d) ts
    (mkGift (gd_inStock d) (gd_stockCount d)) (gd_estimatedDeliveryTime d)
    (gd_rating d) rs (gd_isPopular d) (gd_discount d).

(** ** Sample data

    The scenario of the specification: one gift "g1" with five units in
    stock, ordered twice at 10 a piece, delivery fee 5, tax 1, total 26;
    a second gift "g2" that is out of stock; and a third gift "g3" as the
    gift route stores it when the body has no stock fields. *)

Definition signed_in (uid : string) : option Session :=
  Some (mkSession (Some (mkSessionUser uid))).

Definition sample_recipient : RecipientInput :=
  mkRecipientInput "Ann" 7 "girl" None.

Definition sample_address : DeliveryAddress :=
  mkAddress "12 Main Street" "Pune" "MH" "411001".

Definition sample_payment : PaymentInfoInput :=
  mkPaymentInput "upi" None None.

Definition order_body (owner : option string) (its : list OrderItem)
    (st : option string) (total : Q) : OrderInput :=
  mkOrderInput owner sample_recipient its sample_address sample_payment st
    None None total 5 1 None None None.

Definition sample_body : OrderInput :=
  order_body None [mkItem "g1" 2 10] None 26.

Definition two_item_body : OrderInput :=
  order_body None [mkItem "g1" 2 10; mkItem "g2" 1 4] None 30.

Definition half_unit_body : OrderInput :=
  order_body None [mkItem "g1" (1 # 2) 10] None 11.

Definition delivered_body : OrderInput :=
  order_body None [mkItem "g1" 2 10] (Some "delivered") 26.


Definition sample_gifts : gmap string Gift :=
  {[ "g1" := mkGift true 5; "g2" := mkGift false 0; "g3" := mkGift true 0 ]}.

Definition sample_db : Db := mkDb (mkStore sample_gifts ∅) None [].

(** A server whose local clock does not change: an hour later is 3600000
    milliseconds later. *)
Definition sample_env : Env := mkEnv 1000%Z "o1" (fun d => d + 3600000)%Z.

Definition sample_partner : DeliveryPartner :=
  mkPartner "Ravi" "9876543210" (Some (mkLocation (37 # 2) (147 # 2))).

(** The order of the scenario as a stored document with a delivery
    partner, in a given status. *)
Definition sample_order (st : OrderStatus) : Order :=
  mkOrder "u1" (mkRecipient "Ann" 7 girl None) [mkItem "g1" 2 10]
    sample_address (mkPayment upi payment_pending None) st 3601000%Z None
    26 5 1 0 (Some sample_partner)
    [mkEvent "pending" 1000%Z (Some "Order received")].

Definition db_with_order (st : OrderStatus) : Db :=
  mkDb (mkStore sample_gifts {[ "o1" := sample_order st ]}) None [].





Definition sample_request : PlaceRequest :=
  mkPlaceRequest (signed_in "u1") sample_body.

(** Updates of the stored order "o1" by its owner. *)
Definition cancel_request (reason : option string) : PutRequest :=
  mkPutRequest (signed_in "u1") "o1"
    (mkPatch None (Some (json_string "canceled")) (json_string <$> reason)).

Definition status_request (st : string) : PutRequest :=
  mkPutRequest (signed_in "u1") "o1"
    (mkPatch None (Some (json_string st)) None).

Definition instructions_request (text : string) : PutRequest :=
  mkPutRequest (signed_in "u1") "o1"
    (mkPatch (Some (json_string text)) None None).


(** Sample platform functions and a sample gift. *)
Definition sample_is_url (s : string) : bool := String.prefix "https://" s.

Fixpoint trim_start (s : string) : string :=
  match s with
  | String " " s' => trim_start s'
  | _ => s
  end.

Definition sample_trim (s : string) : string :=
  String.rev (trim_start (String.rev (trim_start s))).

Definition gift_body (gname : string) (in_stock : option bool)
    (count : option Q) : GiftInput :=
  mkGiftInput gname "A wooden train set" 25
    ["https://img.example/train.png"] "toys" (mkAgeRange 3 8) None None
    in_stock count None None None None None.

Definition sample_gift (in_stock : bool) (count : Q) : GiftDoc :=
  mkGiftDoc "Train" "A wooden train set" 25
    ["https://img.example/train.png"] toys (mkAgeRange 3 8) unisex []
    (mkGift in_stock count) 60 0 [] false 0.

Definition gift_env : Env := mkEnv 1000%Z "g1" (fun d => d + 3600000)%Z.

(** A catalogue with one gift, five in stock. *)
Definition sample_catalogue : Catalogue := {[ "g1" := sample_gift true 5 ]}.

(** * Properties *)

(** ** JavaScript numbers *)

Lemma Qlt_bool_iff (x y : Q) : Qlt_bool x y = true <-> x < y.
Proof.
  unfold Qlt_bool. rewrite negb_true_iff. split.
  - intros H. apply Qnot_le_lt. intros Hle.
    apply Qle_bool_iff in Hle. congruence.
  - intros H. destruct (Qle_bool y x) eqn:E; [|reflexivity].
    apply Qle_bool_iff in E. exfalso. exact (Qlt_not_le _ _ H E).
Qed.

Lemma Qlt_bool_false_iff (x y : Q) : Qlt_bool x y = false <-> y <= x.
Proof.
  unfold Qlt_bool. rewrite negb_false_iff. apply Qle_bool_iff.
Qed.

(** ** Parsing: when a schema accepts *)

Lemma zod_parse_inr {T} (r : Zod T) (v : T) :
  zod_parse r = inr v <-> r = ([], Some v).
Proof.
  destruct r as [[|i rest] [x|]]; simpl; split; intros H;
    try discriminate; congruence.
Qed.

Lemma zod_ap_accept {A B} (f : Zod (A -> B)) (a : Zod A) (y : B) :
  f <**> a = ([], Some y) <->
  exists g x, f = ([], Some g) /\ a = ([], Some x) /\ y = g x.
Proof.
  destruct f as [fi [g|]], a as [ai [x|]]; unfold zod_ap; simpl; split.
  all: try (intros H; injection H as H1 H2; try discriminate;
            apply app_eq_nil in H1 as [-> ->]; subst; eauto; fail).
  all: try (intros (g' & x' & Hf & Ha & ->); congruence).
  intros (g' & x' & Hf & Ha & ->).
  injection Hf as -> ->. injection Ha as -> ->. reflexivity.
Qed.

Lemma zod_map_accept {A B} (g : A -> B) (a : Zod A) (y : B) :
  g <$$> a = ([], Some y) <-> exists x, a = ([], Some x) /\ y = g x.
Proof.
  unfold zod_map. rewrite zod_ap_accept. split.
  - intros (g' & x & Hg & Ha & ->). injection Hg as <-. eauto.
  - intros (x & Ha & ->). exists g, x. auto.
Qed.

Lemma zod_check_accept {T} (b : bool) (path : string) (v y : T) :
  zod_check b path v = ([], Some y) <-> b = true /\ y = v.
Proof.
  unfold zod_check. destruct b; split.
  - intros H. injection H as ->. auto.
  - intros [_ ->]. reflexivity.
  - discriminate.
  - intros [? _]. discriminate.
Qed.

Lemma zod_refine_accept {T} (r : Zod T) (pred : T -> bool) (path : string)
    (y : T) :
  zod_refine r pred path = ([], Some y) <-> r = ([], Some y) /\ pred y = true.
Proof.
  destruct r as [issues [d|]]; unfold zod_refine; simpl; split.
  - destruct (pred d) eqn:E; intros H; injection H as H1 H2; subst.
    + auto.
    + destruct issues; discriminate.
  - intros [H Hp]. injection H as -> ->. rewrite Hp. reflexivity.
  - discriminate.
  - intros [H _]. discriminate.
Qed.

Lemma zod_optional_accept {A B} (schema : string -> A -> Zod B) path v y :
  zod_optional schema path v = ([], Some y) <->
  match v with
  | None => y = None
  | Some x => exists x', schema path x = ([], Some x') /\ y = Some x'
  end.
Proof.
  destruct v as [x|]; simpl.
  - apply zod_map_accept.
  - unfold zod_ok. split; [intros H; injection H as <-; reflexivity|].
    intros ->. reflexivity.
Qed.

Lemma zod_default_accept {A B} dflt (schema : string -> A -> Zod B) path v y :
  zod_default dflt schema path v = ([], Some y) <->
  match v with
  | None => y = dflt
  | Some x => schema path x = ([], Some y)
  end.
Proof.
  destruct v as [x|]; simpl; [reflexivity|].
  unfold zod_ok. split; [intros H; injection H as <-; reflexivity|].
  intros ->. reflexivity.
Qed.

Lemma zod_required_accept {A B} (schema : string -> A -> Zod B) path v y :
  zod_required schema path v = ([], Some y) <->
  exists x, v = Some x /\ schema path x = ([], Some y).
Proof.
  destruct v as [x|]; simpl; split.
  - eauto.
  - intros (x' & H & Hx). injection H as <-. exact Hx.
  - discriminate.
  - intros (x' & H & _). discriminate.
Qed.

Lemma z_enum_accept {T} (parse : string -> option T) path s y :
  z_enum parse path s = ([], Some y) <-> parse s = Some y.
Proof.
  unfold z_enum. destruct (parse s) as [v|]; split; try discriminate.
  - intros H. injection H as <-. reflexivity.
  - intros H. injection H as <-. reflexivity.
Qed.

Lemma zod_ok_accept {T} (v y : T) : zod_ok v = ([], Some y) <-> y = v.
Proof.
  unfold zod_ok. split; [intros H; injection H as <-; reflexivity|].
  intros ->. reflexivity.
Qed.

(** Inversion of an accepted object schema: one fact per field. *)
Ltac zod_fields H :=
  repeat match type of H with
  | _ <**> _ = ([], Some _) =>
      let g := fresh "mk" in let x := fresh "v" in
      let Hx := fresh "Hfield" in let Hy := fresh "Hval" in
      apply zod_ap_accept in H as (g & x & H & Hx & Hy)
  | _ <$$> _ = ([], Some _) =>
      let x := fresh "v" in let Hy := fresh "Hval" in
      apply zod_map_accept in H as (x & H & Hy)
  end.

Lemma OrderItemSchema_accept p it it' :
  OrderItemSchema p it = ([], Some it') <->
  it' = it /\ (1 <= String.length (gift it))%nat
  /\ 0 < quantity it /\ 0 <= price it.
Proof.
  unfold OrderItemSchema, z_string_min, z_number_positive,
    z_number_nonnegative. split.
  - intros H. zod_fields H. subst.
    apply zod_check_accept in H as [H1 ->].
    apply zod_check_accept in Hfield0 as [H2 ->].
    apply zod_check_accept in Hfield as [H3 ->].
    apply Nat.leb_le in H1. apply Qlt_bool_iff in H2.
    apply Qle_bool_iff in H3. destruct it; auto.
  - intros (-> & H1 & H2 & H3).
    apply Nat.leb_le in H1. apply Qlt_bool_iff in H2.
    apply Qle_bool_iff in H3. rewrite H1, H2, H3. destruct it; reflexivity.
Qed.

(** An array is accepted when each element is, whatever its index. *)
Lemma zod_array_from_accept {A B} (schema : string -> A -> Zod B)
    (P : A -> B -> Prop)
    (HP : forall path x y, schema path x = ([], Some y) <-> P x y)
    (path : string) (l : list A) :
  forall (i : nat) (l' : list B),
    zod_array_from schema path i l = ([], Some l') <-> Forall2 P l l'.
Proof.
  induction l as [|x l IH]; intros i l'; simpl.
  - rewrite zod_ok_accept. split.
    + intros ->. constructor.
    + intros H. inversion H. reflexivity.
  - rewrite zod_ap_accept. split.
    + intros (g & xs & Hg & Hxs & ->).
      apply zod_map_accept in Hg as (y & Hy & ->).
      constructor; [eapply HP, Hy | apply (IH (S i)), Hxs].
    + intros H. inversion H as [|? y ? ys Hxy Hrest]; subst.
      exists (cons y), ys. split; [|split; [apply IH, Hrest | reflexivity]].
      apply zod_map_accept. exists y. split; [apply HP, Hxy | reflexivity].
Qed.

Lemma items_accept (path : string) (l l' : list OrderItem) :
  zod_array_min 1 OrderItemSchema path l = ([], Some l') <->
  l' = l /\ Forall item_ok l /\ (1 <= length l)%nat.
Proof.
  unfold zod_array_min, zod_array. rewrite zod_refine_accept.
  rewrite (zod_array_from_accept OrderItemSchema
             (fun x y => y = x /\ item_ok x)).
  2: { intros. apply OrderItemSchema_accept. }
  rewrite Nat.leb_le. split.
  - intros [H Hlen].
    assert (l' = l /\ Forall item_ok l) as [-> Hall].
    { clear Hlen. induction H as [|x y l l' [-> Hx] _ [-> IH]];
        split; auto. }
    auto.
  - intros (-> & Hall & Hlen). split; [|exact Hlen].
    clear Hlen. induction Hall; constructor; auto.
Qed.

(** Field by field: the object schema accepts exactly when every field
    schema accepts, and the parsed record holds the parsed fields. *)
Lemma OrderObjectSchema_accept (now : Date) (o : OrderInput) (d : OrderData) :
  OrderObjectSchema now o = ([], Some d) <->
    zod_required (z_string_min 1) "user" (in_user o) = ([], Some (d_user d))
    /\ RecipientSchema "recipient" (in_recipient o)
       = ([], Some (d_recipient d))
    /\ zod_array_min 1 OrderItemSchema "items" (in_items o)
       = ([], Some (d_items d))
    /\ DeliveryAddressSchema "deliveryAddress" (in_deliveryAddress o)
       = ([], Some (d_deliveryAddress d))
    /\ PaymentInfoSchema "paymentInfo" (in_paymentInfo o)
       = ([], Some (d_paymentInfo d))
    /\ zod_default pending (z_enum parse_OrderStatus) "status" (in_status o)
       = ([], Some (d_status d))
    /\ zod_required z_date "deliveryTime" (in_deliveryTime o)
       = ([], Some (d_deliveryTime d))
    /\ zod_optional z_string "specialInstructions" (in_specialInstructions o)
       = ([], Some (d_specialInstructions d))
    /\ z_number_positive "totalAmount" (in_totalAmount o)
       = ([], Some (d_totalAmount d))
    /\ z_number_nonnegative "deliveryFee" (in_deliveryFee o)
       = ([], Some (d_deliveryFee d))
    /\ z_number_nonnegative "tax" (in_tax o) = ([], Some (d_tax d))
    /\ zod_default 0 z_number_nonnegative "discount" (in_discount o)
       = ([], Some (d_discount d))
    /\ zod_optional DeliveryPartnerSchema "deliveryPartner"
         (in_deliveryPartner o)
       = ([], Some (d_deliveryPartner d))
    /\ zod_optional (zod_array (TrackingEventSchema now)) "tracking"
         (in_tracking o)
       = ([], Some (d_tracking d)).
Proof.
  unfold OrderObjectSchema. split.
  - intros H. zod_fields H. subst. simpl. repeat split; assumption.
  - intros (H1 & H2 & H3 & H4 & H5 & H6 & H7 & H8 & H9 & H10 & H11 & H12
            & H13 & H14).
    rewrite H1, H2, H3, H4, H5, H6, H7, H8, H9, H10, H11, H12, H13, H14.
    destruct d; reflexivity.
Qed.

(** What an accepted request or document looks like, as far as the order
    routes depend on it. *)
Lemma OrderValidationSchema_accept (now : Date) (o : OrderInput)
    (d : OrderData) :
  validateData (OrderValidationSchema now o) = inr d ->
  in_user o = Some (d_user d)
  /\ d_items d = in_items o
  /\ Forall item_ok (in_items o)
  /\ d_status d = match in_status o with
                  | None => pending
                  | Some s => default pending (parse_OrderStatus s)
                  end
  /\ d_totalAmount d = in_totalAmount o
  /\ d_deliveryFee d = in_deliveryFee o
  /\ d_tax d = in_tax o
  /\ d_discount d = default 0 (in_discount o)
  /\ total_matches d = true.
Proof.
  unfold validateData, OrderValidationSchema. intros H.
  apply zod_parse_inr, zod_refine_accept in H as [H Hsum].
  apply OrderObjectSchema_accept in H
    as (Hu & _ & Hi & _ & _ & Hs & _ & _ & Ht & Hf & Hx & Hd & _ & _).
  apply zod_required_accept in Hu as (u & Hu & Hu').
  apply zod_check_accept in Hu' as [_ ->].
  apply items_accept in Hi as (Hi & Hall & _).
  apply zod_default_accept in Hs.
  apply zod_check_accept in Ht as [_ Ht].
  apply zod_check_accept in Hf as [_ Hf].
  apply zod_check_accept in Hx as [_ Hx].
  apply zod_default_accept in Hd.
  repeat split; try assumption.
  - destruct (in_status o) as [s|]; [|exact Hs].
    apply z_enum_accept in Hs. rewrite Hs. reflexivity.
  - destruct (in_discount o) as [q|]; [|exact Hd].
    apply zod_check_accept in Hd as [_ ->]. reflexivity.
Qed.

Lemma accepted_items_nonempty now o d :
  validateData (OrderValidationSchema now o) = inr d ->
  exists item rest, in_items o = item :: rest.
Proof.
  unfold validateData, OrderValidationSchema. intros H.
  apply zod_parse_inr, zod_refine_accept in H as [H _].
  apply OrderObjectSchema_accept in H as (_ & _ & Hi & _).
  apply items_accept in Hi as (_ & _ & Hlen).
  destruct (in_items o) as [|item rest]; [simpl in Hlen; lia|eauto].
Qed.

(** ** Running the handlers *)

Ltac run_monad :=
  unfold try_catch, try_finally, bind, ret, throw, connectToDatabase,
    startSession, startTransaction, commitTransaction, abortTransaction,
    endSession, Order_findById, record; simpl.

(** *** The stock loop *)

Lemma decremented_nonnegative g item :
  unavailable (Some g) item = false -> 0 <= stockCount (decremented g item).
Proof.
  unfold unavailable, decremented. intros E. simpl.
  apply orb_false_iff in E as [_ E]. apply Qlt_bool_false_iff in E.
  unfold Qminus. rewrite <- Qle_minus_iff. exact E.
Qed.


(** A turn of the loop always throws, and writes nothing: either the
    stock check fails, or the document passes the validators and the
    driver refuses the session. *)
Lemma reserve_item_run (item : OrderItem) (db : Db) :
  transaction db = Some (mkStore ∅ ∅) ->
  exists lg,
    reserve_item item db
    = (mkDb (committed db) (transaction db) lg,
       inl (first_item_error (gifts (committed db) !! gift item) item)).
Proof.
  intros Htx. unfold reserve_item, Gift_findById, enrolled. run_monad.
  rewrite Htx. simpl. rewrite (left_id_L ∅ (∪)).
  unfold first_item_error.
  destruct (gifts (committed db) !! gift item) as [g|] eqn:Hg; simpl.
  2: { eexists. reflexivity. }
  destruct (negb (inStock g) || Qlt_bool (stockCount g) (quantity item))
    eqn:E; simpl.
  { eexists. reflexivity. }
  pose proof (decremented_nonnegative g item E) as Hnn.
  unfold decremented in Hnn. simpl in Hnn.
  unfold Gift_save, GiftSchema_validate. run_monad.
  apply Qle_bool_iff in Hnn. rewrite Hnn.
  eexists. reflexivity.
Qed.

(** *** Placement, end to end *)

Lemma POST_rejected env req db uid errors :
  caller_id (place_session req) = Some uid ->
  validateData (OrderValidationSchema (now env)
                  (stamped_body env uid (place_body req))) = inl errors ->
  POST env req db
  = (mkDb (committed db) (transaction db) (log db ++ [op_connect]),
     inr (mkResponse 400 (body_errors errors))).
Proof.
  intros Hc Hv. unfold POST. run_monad. rewrite Hc, Hv. reflexivity.
Qed.

(** A validated request ends at its first line item. *)
Lemma POST_validated env req db uid data item rest :
  caller_id (place_session req) = Some uid ->
  validateData (OrderValidationSchema (now env)
                  (stamped_body env uid (place_body req))) = inr data ->
  in_items (place_body req) = item :: rest ->
  exists lg,
    POST env req db
    = (mkDb (committed db) None lg,
       inr (mkResponse 500
              (body_error_message
                 (first_item_error (gifts (committed db) !! gift item)
                    item)))).
Proof.
  intros Hc Hv Hitems. unfold POST. run_monad. rewrite Hc, Hv.
  unfold place_in_transaction. run_monad.
  pose proof (OrderValidationSchema_accept _ _ _ Hv) as (_ & Hd & _).
  simpl in Hd. rewrite Hd, Hitems. simpl. unfold bind.
  match goal with
  | |- context [reserve_item _ ?d] =>
      destruct (reserve_item_run item d) as [lg ->]; [reflexivity|]
  end.
  simpl. eexists. reflexivity.
Qed.

(** Every placement call: the answer is 401, 400 or 500, and the stored
    documents are those of before. *)
Lemma POST_cases env req db :
  exists tx lg resp,
    POST env req db = (mkDb (committed db) tx lg, inr resp)
    /\ (http_status resp = 401%Z \/ http_status resp = 400%Z
        \/ http_status resp = 500%Z).
Proof.
  destruct (caller_id (place_session req)) as [uid|] eqn:Hc.
  - destruct (validateData (OrderValidationSchema (now env)
                (stamped_body env uid (place_body req))))
      as [errors|data] eqn:Hv.
    + rewrite (POST_rejected env req db uid errors Hc Hv).
      do 3 eexists. split; [reflexivity|]. simpl. auto.
    + destruct (accepted_items_nonempty _ _ _ Hv) as (item & rest & Hi).
      simpl in Hi.
      destruct (POST_validated env req db uid data item rest Hc Hv Hi)
        as [lg ->].
      do 3 eexists. split; [reflexivity|]. simpl. auto.
  - unfold POST. run_monad. rewrite Hc.
    do 3 eexists. split; [reflexivity|]. simpl. auto.
Qed.

Lemma POST_committed env req db : committed (POST env req db).1 = committed db.
Proof.
  destruct (POST_cases env req db) as (tx & lg & resp & -> & _). reflexivity.
Qed.

(** *** Saving an order *)

Lemma Order_save_run now isNew oid o db :
  Order_save now no_session isNew oid o db =
  match save_outcome now isNew (orders (committed db)) oid o with
  | Some e =>
      (mkDb (committed db) (transaction db) (log db ++ [op_save_order oid]),
       inl e)
  | None =>
      (mkDb (mkStore (gifts (committed db))
                     (<[oid := o]> (orders (committed db))))
            (transaction db) (log db ++ [op_save_order oid]), inr tt)
  end.
Proof.
  unfold Order_save, save_outcome, OrderSchema_pre_save.
  run_monad.
  destruct (OrderSchema_validate o); [|reflexivity].
  destruct (zod_parse (OrderValidationSchema now (orderData o)));
    [reflexivity|]. simpl.
  destruct (isNew && bool_decide (is_Some (orders (committed db) !! oid)));
    [reflexivity|].
  unfold write_order, enrolled. simpl. reflexivity.
Qed.

(** *** The pre-save hook on a stored document *)

Lemma optional_string_accept path (v y : option string) :
  zod_optional z_string path v = ([], Some y) <-> y = v.
Proof.
  rewrite zod_optional_accept. destruct v as [x|]; [|reflexivity].
  unfold z_string. split.
  - intros (x' & H & ->). apply (proj1 (zod_ok_accept x x')) in H.
    congruence.
  - intros ->. exists x. split; reflexivity.
Qed.

Lemma TrackingEventSchema_accept now path x y :
  TrackingEventSchema now path x = ([], Some y) <-> event_parsed now x y.
Proof.
  unfold TrackingEventSchema, event_parsed, z_string_min. split.
  - intros H. zod_fields H. subst.
    apply zod_check_accept in H as [H1 ->]. apply Nat.leb_le in H1.
    apply optional_string_accept in Hfield as ->.
    apply zod_default_accept in Hfield0. simpl.
    repeat split; try assumption; try reflexivity.
    destruct (in_timestamp x) as [[d|raw]|]; simpl in *.
    + apply (proj1 (zod_ok_accept _ _)) in Hfield0. exact Hfield0.
    + discriminate.
    + exact Hfield0.
  - intros (H1 & H2 & H3 & H4). apply Nat.leb_le in H1. rewrite H1.
    assert (zod_default now z_date (path +:+ ".timestamp") (in_timestamp x)
            = ([], Some (timestamp y))) as ->.
    { apply zod_default_accept.
      destruct (in_timestamp x) as [[d|raw]|]; simpl; try contradiction;
        [rewrite H3; reflexivity | exact H3]. }
    assert (zod_optional z_string (path +:+ ".description") (in_description x)
            = ([], Some (description y))) as ->.
    { apply optional_string_accept. exact H4. }
    destruct y; simpl in *. subst. reflexivity.
Qed.

Lemma tracking_accept now path (evs : list TrackingEvent) y :
  zod_optional (zod_array (TrackingEventSchema now)) path
    (Some (tracking_data evs)) = ([], Some y)
  <-> y = Some evs /\ Forall event_ok evs.
Proof.
  rewrite zod_optional_accept. unfold zod_array.
  assert (Hall : forall ys, Forall2 (event_parsed now) (tracking_data evs) ys
                   <-> ys = evs /\ Forall event_ok evs).
  { induction evs as [|e evs IH]; intros ys; simpl; split.
    - intros H. inversion H. auto.
    - intros [-> _]. constructor.
    - intros H. inversion H as [|? y0 ? ys0 (H1 & H2 & H3 & H4) Hrest]; subst.
      apply IH in Hrest as [-> Hok]. simpl in *.
      split; [|constructor; assumption].
      destruct y0, e; simpl in *. subst. reflexivity.
    - intros [-> Hok]. inversion Hok as [|? ? He Hrest]; subst.
      constructor; [|apply IH; auto].
      repeat split; auto. }
  split.
  - intros (ys & H & ->).
    apply (zod_array_from_accept _ _ (TrackingEventSchema_accept now)) in H.
    apply Hall in H as [-> Hok]. auto.
  - intros [-> Hok]. exists evs. split; [|reflexivity].
    apply (zod_array_from_accept _ _ (TrackingEventSchema_accept now)).
    apply Hall. auto.
Qed.

(** The hook accepts the delivery partner of a document exactly when the
    document has one, with a phone number of ten digits and a location. *)
Lemma partner_accept path (dp : option DeliveryPartner) y :
  zod_optional DeliveryPartnerSchema path (Some (partner_data dp))
  = ([], Some y)
  <-> y = dp
      /\ exists p l,
           dp = Some p /\ currentLocation p = Some l
           /\ ten_digits (phone p) = true.
Proof.
  rewrite zod_optional_accept.
  unfold DeliveryPartnerSchema, LocationSchema, z_string_digits, ten_digits.
  split.
  - intros (y' & H & ->). zod_fields H. subst y'.
    apply zod_required_accept in H as (nm & Hnm & H).
    apply zod_required_accept in Hfield0 as (ph & Hph & H0).
    apply zod_optional_accept in Hfield.
    destruct dp as [[nm' ph' loc]|]; simpl in Hnm, Hph, Hfield;
      [|discriminate].
    injection Hnm as <-. injection Hph as <-.
    unfold z_string in H. apply (proj1 (zod_ok_accept _ _)) in H. subst.
    apply zod_check_accept in H0 as [Hd ->].
    destruct Hfield as (l' & Hl & ->).
    zod_fields Hl. subst.
    apply zod_required_accept in Hl as (la & Hla & Hl).
    apply zod_required_accept in Hfield as (lo & Hlo & Hl2).
    destruct loc as [[la' lo']|]; simpl in Hla, Hlo; [|discriminate].
    injection Hla as <-. injection Hlo as <-.
    unfold z_number in Hl, Hl2.
    apply (proj1 (zod_ok_accept _ _)) in Hl.
    apply (proj1 (zod_ok_accept _ _)) in Hl2. subst.
    split; [reflexivity|]. eauto.
  - intros [-> (p & l & -> & Hl & Hd)].
    destruct p as [nm ph loc]. simpl in *. subst loc. destruct l as [la lo].
    exists (mkPartner nm ph (Some (mkLocation la lo))).
    split; [|reflexivity]. simpl. unfold zod_ok, zod_check.
    rewrite Hd. reflexivity.
Qed.

Lemma items_data (its : list OrderItem) :
  map (fun item => mkItem (gift item) (quantity item) (price item)) its = its.
Proof.
  induction its as [|[? ? ?] its IH]; simpl; [|rewrite IH]; reflexivity.
Qed.

Lemma hook_accepts_tracking now o :
  hook_accepts now o -> Forall event_ok (tracking o).
Proof.
  intros [d H]. apply zod_parse_inr, zod_refine_accept in H as [H _].
  apply OrderObjectSchema_accept in H.
  destruct H as (_ & _ & _ & _ & _ & _ & _ & _ & _ & _ & _ & _ & _ & H).
  apply tracking_accept in H as [_ H]. exact H.
Qed.

Lemma hook_accepts_partner now o : hook_accepts now o -> partner_complete o.
Proof.
  intros [d H]. apply zod_parse_inr, zod_refine_accept in H as [H _].
  apply OrderObjectSchema_accept in H.
  destruct H as (_ & _ & _ & _ & _ & _ & _ & _ & _ & _ & _ & _ & H & _).
  apply partner_accept in H as [_ H]. exact H.
Qed.

(** The check of the amounts that the hook ran is the check on the
    fields of the document. *)
Lemma hook_accepts_amounts now o :
  hook_accepts now o -> order_amounts_match o = true.
Proof.
  intros [d H]. apply OrderValidationSchema_accept in H
    as (_ & Hi & _ & _ & Ht & Hf & Hx & Hd & Hsum).
  simpl in *. rewrite items_data in Hi.
  unfold total_matches in Hsum. unfold order_amounts_match.
  rewrite <- Hi, <- Ht, <- Hf, <- Hx, <- Hd. exact Hsum.
Qed.

(** The hook looks at the status, the instructions and the tracking events
    only through checks that any status of the enumeration, any text and
    any event with a non-empty status pass: replacing them keeps a document
    acceptable, at any time of day. *)
Lemma hook_accepts_update now now' o st text evs :
  hook_accepts now o ->
  Forall event_ok evs ->
  hook_accepts now'
    (mkOrder (user o) (recipient o) (items o) (deliveryAddress o)
       (paymentInfo o) st (deliveryTime o) text (totalAmount o)
       (deliveryFee o) (tax o) (discount o) (deliveryPartner o) evs).
Proof.
  intros [d H] Hevs.
  apply zod_parse_inr, zod_refine_accept in H as [H Hsum].
  apply OrderObjectSchema_accept in H.
  destruct H as (H1 & H2 & H3 & H4 & H5 & H6 & H7 & H8 & H9 & H10 & H11
                 & H12 & H13 & H14).
  simpl in *.
  exists (mkOrderData (d_user d) (d_recipient d) (d_items d)
            (d_deliveryAddress d) (d_paymentInfo d) st (d_deliveryTime d)
            text (d_totalAmount d) (d_deliveryFee d) (d_tax d)
            (d_discount d) (d_deliveryPartner d) (Some evs)).
  apply zod_parse_inr, zod_refine_accept. split.
  - apply OrderObjectSchema_accept. simpl.
    repeat split; try assumption.
    + apply z_enum_accept. destruct st; reflexivity.
    + apply optional_string_accept. reflexivity.
    + apply tracking_accept. auto.
  - exact Hsum.
Qed.

Lemma event_ok_canceled t text : event_ok (mkEvent "canceled" t text).
Proof. unfold event_ok. simpl. lia. Qed.

(** What [apply_patch] does to a document: the status stays or becomes
    "canceled", the instructions are replaced or stay, the tracking
    sequence grows by at most one "canceled" event; nothing else
    changes. *)
Lemma apply_patch_document t body o :
  exists st text added,
    document (apply_patch t body o)
    = mkOrder (user o) (recipient o) (items o) (deliveryAddress o)
        (paymentInfo o) st (deliveryTime o) text (totalAmount o)
        (deliveryFee o) (tax o) (discount o) (deliveryPartner o)
        (tracking o ++ added)
    /\ (st = status o
        \/ (st = canceled /\ asks_cancellation body = true
            /\ updatable (status o) = true))
    /\ (added = [] \/ exists d, added = [mkEvent "canceled" t d])
    /\ (st = status o -> added = []).
Proof.
  unfold apply_patch.
  assert (Hi : exists text,
            let a := match patch_specialInstructions body with
                     | Some v => assign_specialInstructions (mkAssigned o []) v
                     | None => mkAssigned o []
                     end in
            document a
            = mkOrder (user o) (recipient o) (items o) (deliveryAddress o)
                (paymentInfo o) (status o) (deliveryTime o) text
                (totalAmount o) (deliveryFee o) (tax o) (discount o)
                (deliveryPartner o) (tracking o)).
  { destruct (patch_specialInstructions body) as [[|s|tr [c|]]|]; simpl.
    - exists (specialInstructions o). destruct o; reflexivity.
    - exists (Some s). reflexivity.
    - exists (Some c). reflexivity.
    - exists (specialInstructions o). destruct o; reflexivity.
    - exists (specialInstructions o). destruct o; reflexivity. }
  destruct Hi as [text Hi]. simpl in Hi.
  set (a := match patch_specialInstructions body with
            | Some v => assign_specialInstructions (mkAssigned o []) v
            | None => mkAssigned o []
            end) in *.
  destruct (asks_cancellation body) eqn:Hc; simpl.
  - rewrite Hi. simpl.
    destruct (updatable (status o)) eqn:Hu; simpl.
    + unfold cancel. rewrite Hi. simpl.
      destruct (cancellation_description (patch_cancellationReason body));
        simpl; do 3 eexists; (split; [reflexivity|]);
        (split; [right; auto|]); (split; [right; eauto|]);
        intros E; rewrite <- E in Hu; discriminate.
    + exists (status o), text, []. rewrite Hi, app_nil_r. auto.
  - exists (status o), text, []. rewrite Hi, app_nil_r. auto.
Qed.

(** A document passes [save] after the patch exactly when it did
    before. *)
Lemma persistable_apply_patch t body o :
  persistable (document (apply_patch t body o)) <-> persistable o.
Proof.
  destruct (apply_patch_document t body o)
    as (st & text & added & -> & _ & Hadded & _).
  assert (Hadd : Forall event_ok added).
  { destruct Hadded as [->|[d ->]]; [constructor|].
    constructor; [apply event_ok_canceled|constructor]. }
  unfold persistable. split.
  - intros [Hv [now Hh]]. split.
    + destruct o; exact Hv.
    + exists now.
      pose proof (hook_accepts_tracking _ _ Hh) as Hevs. simpl in Hevs.
      apply Forall_app in Hevs as [Hevs _].
      pose proof (hook_accepts_update now now _ (status o)
                    (specialInstructions o) (tracking o) Hh Hevs) as H.
      simpl in H. destruct o; exact H.
  - intros [Hv [now Hh]]. split.
    + destruct o; exact Hv.
    + exists now. apply (hook_accepts_update now now o); [exact Hh|].
      apply Forall_app. split; [|exact Hadd].
      exact (hook_accepts_tracking _ _ Hh).
Qed.

Lemma persistable_save_outcome now oid o stored :
  persistable o <-> save_outcome now false stored oid o = None.
Proof.
  split.
  - intros [Hv [now0 Hh]]. unfold save_outcome. rewrite Hv.
    destruct (hook_accepts_update now0 now o (status o)
                (specialInstructions o) (tracking o) Hh
                (hook_accepts_tracking _ _ Hh)) as [d Hd].
    destruct o. simpl in Hd. rewrite Hd. reflexivity.
  - unfold save_outcome, persistable, hook_accepts.
    destruct (OrderSchema_validate o); [|discriminate].
    destruct (zod_parse (OrderValidationSchema now (orderData o))) as [|d]
      eqn:E; [discriminate|].
    intros _. split; [reflexivity|]. exists now, d. exact E.
Qed.

(** *** Reading and updating, end to end *)

Lemma GET_run req db :
  GET req db =
  match caller_id (get_session req) with
  | None =>
      (mkDb (committed db) (transaction db) (log db ++ [op_connect]),
       inr (mkResponse 401 (body_error "Authentication required")))
  | Some uid =>
      (mkDb (committed db) (transaction db)
         (((log db ++ [op_connect]) ++ [op_find_order (get_id req)])
          ++ match orders (committed db) !! get_id req with
             | None => []
             | Some order => populate_log order
             end),
       inr (match orders (committed db) !! get_id req with
            | None => mkResponse 404 (body_error "Order not found")
            | Some order =>
                if String.eqb (user order) uid
                then mkResponse 200
                       (body_order_populated (get_id req) order
                          (populated (gifts (committed db)) order))
                else mkResponse 403 (body_error "Access denied")
            end))
  end.
Proof.
  unfold GET, Order_findById_populate, populate_items_gift. run_monad.
  destruct (caller_id (get_session req)) as [uid|]; [|reflexivity]. simpl.
  destruct (orders (committed db) !! get_id req) as [o|];
    [|rewrite app_nil_r; reflexivity].
  unfold populate_log, populated.
  destruct (items o) as [|item rest]; simpl;
    [rewrite app_nil_r|]; destruct (String.eqb (user o) uid); reflexivity.
Qed.

Lemma saves_iff now a :
  saves now a = true <-> rejected a = [] /\ persistable (document a).
Proof.
  unfold saves. rewrite (persistable_save_outcome now "" (document a) ∅).
  destruct (rejected a); [|split; [discriminate|intros [? _]; discriminate]].
  destruct (save_outcome now false ∅ "" (document a)); split;
    try discriminate; auto.
  intros [_ ?]. discriminate.
Qed.

Lemma save_outcome_update now stored stored' oid oid' o :
  save_outcome now false stored oid o = save_outcome now false stored' oid' o.
Proof. reflexivity. Qed.

Lemma PUT_run env req db :
  PUT env req db =
  match caller_id (put_session req) with
  | None =>
      (mkDb (committed db) (transaction db) (log db ++ [op_connect]),
       inr (mkResponse 401 (body_error "Authentication required")))
  | Some uid =>
      let lg := ((log db ++ [op_connect]) ++ [op_find_order (put_id req)])%list in
      match orders (committed db) !! put_id req with
      | None =>
          (mkDb (committed db) (transaction db) lg,
           inr (mkResponse 404 (body_error "Order not found")))
      | Some order =>
          if negb (String.eqb (user order) uid)
          then (mkDb (committed db) (transaction db) lg,
                inr (mkResponse 403 (body_error "Access denied")))
          else if negb (updatable (status order))
          then (mkDb (committed db) (transaction db) lg,
                inr (mkResponse 400
                       (body_error "Order cannot be updated at this stage")))
          else
            let a := apply_patch (now env) (put_body req) order in
            if saves (now env) a
            then (mkDb (mkStore (gifts (committed db))
                                (<[put_id req := document a]>
                                   (orders (committed db))))
                       (transaction db) (lg ++ [op_save_order (put_id req)]),
                  inr (mkResponse 200 (body_order (put_id req) (document a))))
            else (mkDb (committed db) (transaction db)
                    (lg ++ [op_save_order (put_id req)]),
                  inr (mkResponse 500 (body_error "Failed to update order")))
      end
  end.
Proof.
  unfold PUT. run_monad.
  destruct (caller_id (put_session req)) as [uid|]; [|reflexivity]. simpl.
  destruct (orders (committed db) !! put_id req) as [o|]; [|reflexivity].
  destruct (negb (String.eqb (user o) uid)); [reflexivity|].
  destruct (negb (updatable (status o))); [reflexivity|].
  unfold bind, Assigned_save, saves.
  destruct (rejected (apply_patch (now env) (put_body req) o)) eqn:Hr.
  - rewrite Order_save_run. simpl.
    rewrite (save_outcome_update (now env) (orders (committed db)) ∅
               (put_id req) "").
    destruct (save_outcome (now env) false ∅ ""
                (document (apply_patch (now env) (put_body req) o)));
      reflexivity.
  - run_monad. reflexivity.
Qed.

(** Every update call: either it answers 401, 404, 403, 400 or 500 and
    the stored documents are those of before, or it answers 200 to the
    owner of a "pending" or "confirmed" order and stores the patched
    document, which passes [save], in its place. *)
Lemma PUT_cases env req db :
  (exists lg resp,
     PUT env req db = (mkDb (committed db) (transaction db) lg, inr resp)
     /\ http_status resp <> 200%Z)
  \/ (exists lg uid o a,
        caller_id (put_session req) = Some uid
        /\ orders (committed db) !! put_id req = Some o
        /\ user o = uid
        /\ updatable (status o) = true
        /\ a = apply_patch (now env) (put_body req) o
        /\ rejected a = []
        /\ persistable (document a)
        /\ PUT env req db
           = (mkDb (mkStore (gifts (committed db))
                       (<[put_id req := document a]> (orders (committed db))))
                (transaction db) lg,
              inr (mkResponse 200 (body_order (put_id req) (document a))))).
Proof.
  rewrite PUT_run.
  destruct (caller_id (put_session req)) as [uid|];
    [|left; do 2 eexists; split; [reflexivity|discriminate]].
  simpl.
  destruct (orders (committed db) !! put_id req) as [o|];
    [|left; do 2 eexists; split; [reflexivity|discriminate]].
  destruct (String.eqb (user o) uid) eqn:Hu; simpl;
    [|left; do 2 eexists; split; [reflexivity|discriminate]].
  destruct (updatable (status o)) eqn:Hup; simpl;
    [|left; do 2 eexists; split; [reflexivity|discriminate]].
  destruct (saves (now env) (apply_patch (now env) (put_body req) o))
    eqn:Hs; [|left; do 2 eexists; split; [reflexivity|discriminate]].
  apply saves_iff in Hs as [Hr Hp]. apply String.eqb_eq in Hu.
  right.
  exists (((log db ++ [op_connect]) ++ [op_find_order (put_id req)])
          ++ [op_save_order (put_id req)])%list,
    uid, o, (apply_patch (now env) (put_body req) o).
  split; [reflexivity|]. split; [reflexivity|]. split; [exact Hu|].
  split; [exact Hup|]. split; [reflexivity|]. split; [exact Hr|].
  split; [exact Hp|]. reflexivity.
Qed.

(** An update call answered 200. *)
Lemma PUT_200 env req db oid o :
  (PUT env req db).2 = inr (mkResponse 200 (body_order oid o)) ->
  exists uid o0,
    oid = put_id req
    /\ caller_id (put_session req) = Some uid
    /\ orders (committed db) !! put_id req = Some o0
    /\ user o0 = uid
    /\ updatable (status o0) = true
    /\ o = document (apply_patch (now env) (put_body req) o0)
    /\ rejected (apply_patch (now env) (put_body req) o0) = []
    /\ persistable o
    /\ committed (PUT env req db).1
       = mkStore (gifts (committed db))
           (<[put_id req := o]> (orders (committed db))).
Proof.
  intros H.
  destruct (PUT_cases env req db)
    as [(lg & resp & E & Hne)
       |(lg & uid & o0 & a & Hc & Ho & Hu & Hup & -> & Hr & Hp & E)];
    rewrite E in H |- *; simpl in H |- *.
  - injection H as ->. exfalso. apply Hne. reflexivity.
  - injection H as <- <-. exists uid, o0. auto 10.
Qed.

(** What an update call leaves in the store. *)
Lemma PUT_store env req db :
  committed (PUT env req db).1 = committed db
  \/ exists o,
       (PUT env req db).2 = inr (mkResponse 200 (body_order (put_id req) o))
       /\ committed (PUT env req db).1
          = mkStore (gifts (committed db))
              (<[put_id req := o]> (orders (committed db))).
Proof.
  destruct (PUT_cases env req db)
    as [(lg & resp & -> & _)
       |(lg & uid & o & a & _ & _ & _ & _ & _ & _ & _ & ->)].
  - left. reflexivity.
  - right. eauto.
Qed.

(** ** The claims *)

(** *** Unauthenticated placement *)

(** C8 (as stated, refuted): the placement handler calls
    [connectToDatabase()] before it looks at the session, so a request
    without caller identity does reach the database: the log of database
    operations, empty before the call, holds the connection afterwards. *)
Lemma POST_unauthenticated_connects :
  caller_id (place_session (mkPlaceRequest None sample_body)) = None
  /\ log sample_db = []
  /\ log (POST sample_env (mkPlaceRequest None sample_body) sample_db).1
     = [op_connect]
  /\ log (POST sample_env (mkPlaceRequest None sample_body) sample_db).1
     <> log sample_db.
Proof. repeat split. discriminate. Qed.

(** C8 (amended): a placement call without caller identity answers 401
    "Authentication required"; it reads and writes no document and opens no
    transaction, so the stored gifts and orders are untouched.  The
    one database operation it issues is [connectToDatabase()], which the
    handler calls before it looks at the session. *)
Theorem POST_unauthenticated (env : Env) (req : PlaceRequest) (db : Db) :
  caller_id (place_session req) = None ->
  POST env req db
  = (mkDb (committed db) (transaction db) (log db ++ [op_connect]),
     inr (mkResponse 401 (body_error "Authentication required"))).
Proof.
  intros Hanon. unfold POST.
  unfold try_catch, bind, connectToDatabase, record. simpl.
  rewrite Hanon. reflexivity.
Qed.

Lemma POST_unauthenticated_witness :
  caller_id (place_session (mkPlaceRequest None sample_body)) = None
  /\ POST sample_env (mkPlaceRequest None sample_body) sample_db
     = (mkDb (committed sample_db) (transaction sample_db)
          (log sample_db ++ [op_connect]),
        inr (mkResponse 401 (body_error "Authentication required"))).
Proof.
  split; [reflexivity|].
  apply (POST_unauthenticated sample_env (mkPlaceRequest None sample_body)
           sample_db).
  reflexivity.
Defined.

(** *** Reading an order of someone else *)

(** C9: when an authenticated caller asks for an existing order whose owner
    is someone else, [GET] answers 403 "Access denied", the response carries
    no order, and the stored gifts and orders are as before. *)
Theorem GET_foreign_order_denied (req : GetRequest) (db : Db) (uid : string)
    (o : Order) :
  caller_id (get_session req) = Some uid ->
  orders (committed db) !! get_id req = Some o ->
  user o <> uid ->
  (GET req db).2 = inr (mkResponse 403 (body_error "Access denied"))
  /\ committed (GET req db).1 = committed db.
Proof.
  intros Hc Ho Hne. rewrite GET_run, Hc, Ho. simpl.
  apply String.eqb_neq in Hne. rewrite Hne. auto.
Qed.

Lemma GET_foreign_order_denied_witness :
  (GET (mkGetRequest (signed_in "u2") "o1") (db_with_order pending)).2
  = inr (mkResponse 403 (body_error "Access denied"))
  /\ committed (GET (mkGetRequest (signed_in "u2") "o1")
                  (db_with_order pending)).1
     = committed (db_with_order pending).
Proof.
  apply (GET_foreign_order_denied (mkGetRequest (signed_in "u2") "o1")
           (db_with_order pending) "u2" (sample_order pending)).
  - reflexivity.
  - vm_compute. reflexivity.
  - simpl. discriminate.
Defined.

(** *** A placement with an item that cannot be served *)

(** C1: when a line item of a validated request fails its stock check
    against the stored gifts, whichever item of the request it is, the
    call answers 500, and after it the stored gifts and the stored orders
    are exactly those of before: no decrement is applied, no order is
    created, and no transaction stays open. *)
Theorem POST_all_or_nothing (env : Env) (req : PlaceRequest) (db : Db)
    (uid : string) (data : OrderData) (item : OrderItem) :
  caller_id (place_session req) = Some uid ->
  validateData (OrderValidationSchema (now env)
                  (stamped_body env uid (place_body req))) = inr data ->
  In item (in_items (place_body req)) ->
  unavailable (gifts (committed db) !! gift item) item = true ->
  (exists e,
     (POST env req db).2 = inr (mkResponse 500 (body_error_message e)))
  /\ gifts (committed (POST env req db).1) = gifts (committed db)
  /\ orders (committed (POST env req db).1) = orders (committed db)
  /\ transaction (POST env req db).1 = None.
Proof.
  intros Hc Hv _ _.
  destruct (accepted_items_nonempty _ _ _ Hv) as (first & rest & Hi).
  simpl in Hi.
  destruct (POST_validated env req db uid data first rest Hc Hv Hi)
    as [lg ->].
  simpl. split; [eexists; reflexivity|]. auto.
Qed.

Lemma POST_all_or_nothing_witness :
  (exists e,
     (POST sample_env (mkPlaceRequest (signed_in "u1") two_item_body)
        sample_db).2
     = inr (mkResponse 500 (body_error_message e)))
  /\ gifts (committed
              (POST sample_env (mkPlaceRequest (signed_in "u1") two_item_body)
                 sample_db).1)
     = gifts (committed sample_db)
  /\ orders (committed
               (POST sample_env
                  (mkPlaceRequest (signed_in "u1") two_item_body)
                  sample_db).1)
     = orders (committed sample_db)
  /\ transaction
       (POST sample_env (mkPlaceRequest (signed_in "u1") two_item_body)
          sample_db).1
     = None.
Proof.
  eapply (POST_all_or_nothing sample_env
            (mkPlaceRequest (signed_in "u1") two_item_body) sample_db "u1" _
            (mkItem "g2" 1 4)).
  - reflexivity.
  - vm_compute. reflexivity.
  - simpl. auto.
  - vm_compute. reflexivity.
Defined.

(** *** Stock after a placement call *)




(** *** Amounts of persisted orders *)




(** *** Ownership of a created order *)



(** *** Cancelling an order *)

Lemma sample_order_persistable (st : OrderStatus) :
  persistable (sample_order st).
Proof.
  split; [reflexivity|]. exists 0%Z.
  destruct st; eexists; vm_compute; reflexivity.
Qed.





(** *** Status changes through updates *)




(** *** The scenario of the specification *)


(** *** Quantities below one *)

(** C7 (the code departs from the claim): a line item with quantity 0.5
    passes the placement validation ([z.number().positive()]): the call
    is not answered 400.  It enters the stock loop and ends, like every
    validated request whose first item is in stock, at
    [gift.save({ session })] with a 500; the stored gifts are as
    before. *)
Theorem POST_accepts_fractional_quantity :
  (exists data,
     validateData
       (OrderValidationSchema (now sample_env)
          (stamped_body sample_env "u1" half_unit_body)) = inr data
     /\ d_items data = [mkItem "g1" (1 # 2) 10])
  /\ (POST sample_env (mkPlaceRequest (signed_in "u1") half_unit_body)
        sample_db).2
     = inr (mkResponse 500 (body_error_message TypeError))
  /\ committed
       (POST sample_env (mkPlaceRequest (signed_in "u1") half_unit_body)
          sample_db).1
     = committed sample_db.
Proof.
  split; [eexists; split; vm_compute; reflexivity|].
  vm_compute. repeat split.
Qed.

(** ** Further properties of the single-order routes *)

(** X1: [GET] of one order only reads: the stored gifts and orders and the
    open transaction are as before, whatever the request, and asking again
    gives the same answer; the owner of an existing order is answered 200
    with the order as stored, the gift reference of each line item
    populated from the stored gifts (a gift that is not stored gives
    [null]). *)
Theorem GET_only_reads (req : GetRequest) (db : Db) :
  committed (GET req db).1 = committed db
  /\ transaction (GET req db).1 = transaction db
  /\ (GET req (GET req db).1).2 = (GET req db).2
  /\ (forall uid o,
        caller_id (get_session req) = Some uid ->
        orders (committed db) !! get_id req = Some o ->
        user o = uid ->
        (GET req db).2
        = inr (mkResponse 200
                 (body_order_populated (get_id req) o
                    (populated (gifts (committed db)) o)))).
Proof.
  rewrite (GET_run req (GET req db).1). rewrite !GET_run.
  destruct (caller_id (get_session req)) as [uid|] eqn:Hc; simpl.
  - repeat split. intros uid' o H Ho Hu. injection H as <-.
    rewrite Ho. apply String.eqb_eq in Hu. rewrite Hu. reflexivity.
  - repeat split. discriminate.
Qed.

Lemma GET_only_reads_witness :
  (GET (mkGetRequest (signed_in "u1") "o1") (db_with_order confirmed)).2
  = inr (mkResponse 200
           (body_order_populated "o1" (sample_order confirmed) [true])).
Proof.
  apply (proj2 (proj2 (proj2
           (GET_only_reads (mkGetRequest (signed_in "u1") "o1")
              (db_with_order confirmed))))
           "u1" (sample_order confirmed)).
  - reflexivity.
  - vm_compute. reflexivity.
  - reflexivity.
Defined.

(** X2: an update call writes only when it answers 200, and it answers 200
    only to the owner of an order that is "pending" or "confirmed": any
    other answer (401, 403, 404, 400, 500) leaves the stored gifts and
    orders exactly as they were. *)
Theorem PUT_writes_only_for_owner (env : Env) (req : PutRequest) (db : Db) :
  exists resp,
    (PUT env req db).2 = inr resp
    /\ (http_status resp <> 200%Z -> committed (PUT env req db).1 = committed db)
    /\ (http_status resp = 200%Z ->
        exists uid o,
          caller_id (put_session req) = Some uid
          /\ orders (committed db) !! put_id req = Some o
          /\ user o = uid
          /\ (status o = pending \/ status o = confirmed)).
Proof.
  destruct (PUT_cases env req db)
    as [(lg & resp & -> & Hne)
       |(lg & uid & o & a & Hc & Ho & Hu & Hup & _ & _ & _ & ->)]; simpl.
  - exists resp. split; [reflexivity|]. split; [auto|]. intros H. contradiction.
  - eexists. split; [reflexivity|]. simpl. split.
    + intros H. contradiction H. reflexivity.
    + intros _. exists uid, o. repeat split; try assumption.
      destruct (status o); try discriminate; auto.
Qed.

(** X3: an update call has a narrow footprint.  It never touches the gift
    collection (a cancellation gives no stock back), never creates or
    deletes an order and leaves every order but the addressed one as it
    is.  In the addressed order only the status, the instructions and the
    tracking sequence can change, and the tracking sequence only grows: the
    old events stay, in order, followed by at most one new event. *)
Theorem PUT_footprint (env : Env) (req : PutRequest) (db : Db) :
  gifts (committed (PUT env req db).1) = gifts (committed db)
  /\ (forall oid,
        oid <> put_id req ->
        orders (committed (PUT env req db).1) !! oid
        = orders (committed db) !! oid)
  /\ (orders (committed db) !! put_id req = None ->
      orders (committed (PUT env req db).1) !! put_id req = None)
  /\ (forall o,
        orders (committed db) !! put_id req = Some o ->
        exists o' added,
          orders (committed (PUT env req db).1) !! put_id req = Some o'
          /\ user o' = user o /\ recipient o' = recipient o
          /\ items o' = items o /\ deliveryAddress o' = deliveryAddress o
          /\ paymentInfo o' = paymentInfo o
          /\ deliveryTime o' = deliveryTime o
          /\ totalAmount o' = totalAmount o /\ deliveryFee o' = deliveryFee o
          /\ tax o' = tax o /\ discount o' = discount o
          /\ deliveryPartner o' = deliveryPartner o
          /\ tracking o' = (tracking o ++ added)%list
          /\ (length added <= 1)%nat).
Proof.
  destruct (PUT_store env req db) as [Hsame|(o1 & Hr & Hst)].
  - rewrite Hsame. split; [reflexivity|]. split; [auto|]. split; [auto|].
    intros o Ho. exists o, []. rewrite app_nil_r.
    repeat split; try assumption. simpl. lia.
  - rewrite Hst. simpl. split; [reflexivity|].
    apply PUT_200 in Hr as (uid & o0 & _ & _ & Ho0 & _ & _ & Hdoc & _).
    split; [|split].
    + intros oid Hne. apply lookup_insert_ne. congruence.
    + congruence.
    + intros o Ho. assert (o0 = o) as -> by congruence.
      destruct (apply_patch_document (now env) (put_body req) o)
        as (st & text & added & Hd & _ & Hadded & _).
      exists o1, added. split; [apply lookup_insert_eq|].
      rewrite Hdoc, Hd. simpl. repeat split.
      destruct Hadded as [->|[d ->]]; simpl; lia.
Qed.

Lemma PUT_footprint_witness :
  exists o' added,
    orders (committed (PUT sample_env (cancel_request None)
                         (db_with_order pending)).1) !! "o1" = Some o'
    /\ user o' = user (sample_order pending)
    /\ recipient o' = recipient (sample_order pending)
    /\ items o' = items (sample_order pending)
    /\ deliveryAddress o' = deliveryAddress (sample_order pending)
    /\ paymentInfo o' = paymentInfo (sample_order pending)
    /\ deliveryTime o' = deliveryTime (sample_order pending)
    /\ totalAmount o' = totalAmount (sample_order pending)
    /\ deliveryFee o' = deliveryFee (sample_order pending)
    /\ tax o' = tax (sample_order pending)
    /\ discount o' = discount (sample_order pending)
    /\ deliveryPartner o' = deliveryPartner (sample_order pending)
    /\ tracking o' = (tracking (sample_order pending) ++ added)%list
    /\ (length added <= 1)%nat.
Proof.
  apply (proj2 (proj2 (proj2
           (PUT_footprint sample_env (cancel_request None)
              (db_with_order pending))))
           (sample_order pending)).
  vm_compute. reflexivity.
Defined.

(** X4: cancellation is final.  Once an update call has answered 200 with
    an order in status "canceled", no later update call on that order, by
    anyone and with any patch, changes the stored gifts or orders, and none
    is answered 200. *)
Theorem PUT_cancel_is_final (env1 env2 : Env) (req1 req2 : PutRequest)
    (db : Db) (o' : Order) :
  (PUT env1 req1 db).2
  = inr (mkResponse 200 (body_order (put_id req1) o')) ->
  status o' = canceled ->
  put_id req2 = put_id req1 ->
  committed (PUT env2 req2 (PUT env1 req1 db).1).1
  = committed (PUT env1 req1 db).1
  /\ exists resp,
      (PUT env2 req2 (PUT env1 req1 db).1).2 = inr resp
      /\ http_status resp <> 200%Z.
Proof.
  intros Hfirst Hst Hid.
  assert (Hstored : orders (committed (PUT env1 req1 db).1) !! put_id req2
                    = Some o').
  { apply PUT_200 in Hfirst as (_ & _ & _ & _ & _ & _ & _ & _ & _ & _ & ->).
    rewrite Hid. apply lookup_insert_eq. }
  rewrite (PUT_run env2 req2). rewrite Hstored, Hst. simpl.
  destruct (caller_id (put_session req2)) as [uid|]; simpl.
  - destruct (negb (String.eqb (user o') uid)); simpl;
      (split; [reflexivity|]); eexists; (split; [reflexivity|]);
      simpl; discriminate.
  - split; [reflexivity|]. eexists. split; [reflexivity|].
    simpl. discriminate.
Qed.

Lemma PUT_cancel_is_final_witness :
  committed (PUT sample_env (status_request "confirmed")
               (PUT sample_env (cancel_request None)
                  (db_with_order pending)).1).1
  = committed (PUT sample_env (cancel_request None) (db_with_order pending)).1
  /\ exists resp,
      (PUT sample_env (status_request "confirmed")
         (PUT sample_env (cancel_request None) (db_with_order pending)).1).2
      = inr resp
      /\ http_status resp <> 200%Z.
Proof.
  eapply (PUT_cancel_is_final sample_env sample_env (cancel_request None)
            (status_request "confirmed") (db_with_order pending)).
  - vm_compute. reflexivity.
  - reflexivity.
  - reflexivity.
Defined.

(** X5: a patch that carries instructions, as a string, and asks for no
    cancellation, sent by the owner of a "pending" or "confirmed" order
    that passes [save] (which asks, among others, for a complete delivery
    partner), replaces the instructions and nothing else: the status and
    the tracking sequence stay, no event is added, and the call answers
    200 with the order as stored. *)
Theorem PUT_replaces_instructions (env : Env) (req : PutRequest) (db : Db)
    (uid : string) (o : Order) (text : string) :
  caller_id (put_session req) = Some uid ->
  orders (committed db) !! put_id req = Some o ->
  user o = uid ->
  status o = pending \/ status o = confirmed ->
  persistable o ->
  patch_specialInstructions (put_body req) = Some (json_string text) ->
  patch_status (put_body req) <> Some (json_string "canceled") ->
  (PUT env req db).2
  = inr (mkResponse 200
           (body_order (put_id req)
              (mkOrder (user o) (recipient o) (items o) (deliveryAddress o)
                 (paymentInfo o) (status o) (deliveryTime o) (Some text)
                 (totalAmount o) (deliveryFee o) (tax o) (discount o)
                 (deliveryPartner o) (tracking o))))
  /\ orders (committed (PUT env req db).1)
     = <[put_id req :=
           mkOrder (user o) (recipient o) (items o) (deliveryAddress o)
             (paymentInfo o) (status o) (deliveryTime o) (Some text)
             (totalAmount o) (deliveryFee o) (tax o) (discount o)
             (deliveryPartner o) (tracking o)]> (orders (committed db)).
Proof.
  intros Hc Ho Hu Hst Hp Htext Hno.
  assert (Hup : updatable (status o) = true)
    by (destruct Hst as [-> | ->]; reflexivity).
  assert (Hnc : asks_cancellation (put_body req) = false).
  { unfold asks_cancellation.
    destruct (patch_status (put_body req)) as [[|s|tr c]|]; try reflexivity.
    destruct (String.eqb s "canceled") eqn:E; [|reflexivity].
    apply String.eqb_eq in E. subst. contradiction Hno. reflexivity. }
  assert (Ha : apply_patch (now env) (put_body req) o
               = mkAssigned
                   (mkOrder (user o) (recipient o) (items o)
                      (deliveryAddress o) (paymentInfo o) (status o)
                      (deliveryTime o) (Some text) (totalAmount o)
                      (deliveryFee o) (tax o) (discount o) (deliveryPartner o)
                      (tracking o)) []).
  { unfold apply_patch. rewrite Htext, Hnc. reflexivity. }
  assert (Hs : saves (now env) (apply_patch (now env) (put_body req) o)
               = true).
  { apply saves_iff. split; [rewrite Ha; reflexivity|].
    apply persistable_apply_patch, Hp. }
  rewrite PUT_run, Hc, Ho. simpl.
  apply String.eqb_eq in Hu. rewrite Hu, Hup. simpl.
  rewrite Hs, Ha. simpl. auto.
Qed.

Lemma PUT_replaces_instructions_witness :
  (PUT sample_env (instructions_request "leave at the door")
     (db_with_order confirmed)).2
  = inr (mkResponse 200
           (body_order "o1"
              (mkOrder "u1" (mkRecipient "Ann" 7 girl None)
                 [mkItem "g1" 2 10] sample_address
                 (mkPayment upi payment_pending None) confirmed 3601000%Z
                 (Some "leave at the door") 26 5 1 0 (Some sample_partner)
                 [mkEvent "pending" 1000%Z (Some "Order received")]))).
Proof.
  apply (PUT_replaces_instructions sample_env
           (instructions_request "leave at the door")
           (db_with_order confirmed) "u1" (sample_order confirmed)
           "leave at the door").
  - reflexivity.
  - vm_compute. reflexivity.
  - reflexivity.
  - right. reflexivity.
  - apply sample_order_persistable.
  - reflexivity.
  - discriminate.
Defined.

(** ** Further properties of order placement *)

(** X6: a placement call never changes or removes an order that is already
    stored, and it adds at most one: the orders after the call are the
    orders before it, plus, exactly when the answer is 201, the returned
    order under an identifier that was free. *)
Theorem POST_keeps_existing_orders (env : Env) (req : PlaceRequest) (db : Db) :
  (forall oid o,
     orders (committed db) !! oid = Some o ->
     orders (committed (POST env req db).1) !! oid = Some o)
  /\ exists resp,
      (POST env req db).2 = inr resp
      /\ (http_status resp <> 201%Z ->
          orders (committed (POST env req db).1) = orders (committed db))
      /\ (http_status resp = 201%Z ->
          exists o,
            payload resp = body_order (new_id env) o
            /\ orders (committed db) !! new_id env = None
            /\ orders (committed (POST env req db).1)
               = <[new_id env := o]> (orders (committed db))).
Proof.
  destruct (POST_cases env req db) as (tx & lg & resp & -> & Hst). simpl.
  split; [auto|]. exists resp. split; [reflexivity|]. split; [auto|].
  intros H. rewrite H in Hst. destruct Hst as [?|[?|?]]; discriminate.
Qed.

Lemma POST_keeps_existing_orders_witness :
  orders (committed
            (POST (mkEnv 2000%Z "o2" (fun d => d + 3600000)%Z) sample_request
               (db_with_order delivered)).1) !! "o1"
  = Some (sample_order delivered).
Proof.
  apply (proj1 (POST_keeps_existing_orders
                  (mkEnv 2000%Z "o2" (fun d => d + 3600000)%Z) sample_request
                  (db_with_order delivered))
           "o1" (sample_order delivered)).
  vm_compute. reflexivity.
Defined.

(** X7: a placement call never creates or deletes a gift and never raises a
    stock count; a gift it has written has a count that is not negative
    (no line item is served beyond the stock found). *)
Theorem POST_stock_never_grows (env : Env) (req : PlaceRequest) (db : Db)
    (gid : string) :
  match gifts (committed db) !! gid with
  | Some g =>
      exists g',
        gifts (committed (POST env req db).1) !! gid = Some g'
        /\ stockCount g' <= stockCount g
        /\ (g' = g \/ 0 <= stockCount g')
  | None => gifts (committed (POST env req db).1) !! gid = None
  end.
Proof.
  rewrite POST_committed.
  destruct (gifts (committed db) !! gid) as [g|]; [|reflexivity].
  exists g. split; [reflexivity|]. split; [apply Qle_refl | auto].
Qed.

(** X8: when the first line item of a validated request can be served
    (its gift is stored, in stock, with at least the ordered quantity),
    the call ends at the save of that gift: [gift.save({ session })] is
    handed the next-auth session, the driver throws, and the call answers
    500 with the message of that error.  The stored gifts and orders are
    exactly as before and no transaction stays open. *)
Theorem POST_first_item_available (env : Env) (req : PlaceRequest)
    (db : Db) (uid : string) (data : OrderData) (item : OrderItem)
    (rest : list OrderItem) (g : Gift) :
  caller_id (place_session req) = Some uid ->
  validateData (OrderValidationSchema (now env)
                  (stamped_body env uid (place_body req))) = inr data ->
  in_items (place_body req) = item :: rest ->
  gifts (committed db) !! gift item = Some g ->
  inStock g = true ->
  quantity item <= stockCount g ->
  (POST env req db).2 = inr (mkResponse 500 (body_error_message TypeError))
  /\ committed (POST env req db).1 = committed db
  /\ transaction (POST env req db).1 = None.
Proof.
  intros Hc Hv Hitems Hg Hin Hq.
  destruct (POST_validated env req db uid data item rest Hc Hv Hitems)
    as [lg ->].
  simpl. rewrite Hg. unfold first_item_error, unavailable.
  rewrite Hin. apply Qlt_bool_false_iff in Hq. rewrite Hq. simpl. auto.
Qed.

Lemma POST_first_item_available_witness :
  (POST sample_env sample_request sample_db).2
  = inr (mkResponse 500 (body_error_message TypeError))
  /\ committed (POST sample_env sample_request sample_db).1
     = committed sample_db
  /\ transaction (POST sample_env sample_request sample_db).1 = None.
Proof.
  eapply (POST_first_item_available sample_env sample_request sample_db "u1"
            _ (mkItem "g1" 2 10) [] (mkGift true 5)).
  - reflexivity.
  - vm_compute. reflexivity.
  - reflexivity.
  - vm_compute. reflexivity.
  - reflexivity.
  - vm_compute. discriminate.
Defined.

(** X9: no placement call succeeds.  Whatever the request and the
    database, the answer is 401, 400 or 500, never 201, and the stored
    gifts and orders after the call are exactly those of before. *)
Theorem POST_never_succeeds (env : Env) (req : PlaceRequest) (db : Db) :
  committed (POST env req db).1 = committed db
  /\ exists resp,
      (POST env req db).2 = inr resp
      /\ (http_status resp = 401%Z \/ http_status resp = 400%Z
          \/ http_status resp = 500%Z).
Proof.
  destruct (POST_cases env req db) as (tx & lg & resp & -> & Hst). simpl.
  split; [reflexivity|]. eauto.
Qed.

(** X10: when the first line item of a validated request cannot be served
    (its gift is not stored, is marked out of stock, or has less stock than
    ordered), the call answers 500 with the message that names that gift,
    and the stored gifts and orders are exactly as before. *)
Theorem POST_first_item_unavailable (env : Env) (req : PlaceRequest)
    (db : Db) (uid : string) (data : OrderData) (item : OrderItem)
    (rest : list OrderItem) :
  caller_id (place_session req) = Some uid ->
  validateData (OrderValidationSchema (now env)
                  (stamped_body env uid (place_body req))) = inr data ->
  in_items (place_body req) = item :: rest ->
  match gifts (committed db) !! gift item with
  | None => True
  | Some g => inStock g = false \/ stockCount g < quantity item
  end ->
  (POST env req db).2
  = inr (mkResponse 500
           (body_error_message
              (Error ("Gift " +:+ gift item
                      +:+ " is out of stock or unavailable"))))
  /\ committed (POST env req db).1 = committed db.
Proof.
  intros Hc Hv Hitems Hbad.
  assert (Hout : unavailable (gifts (committed db) !! gift item) item
                 = true).
  { destruct (gifts (committed db) !! gift item) as [g|]; [|reflexivity].
    simpl. destruct Hbad as [Hin|Hlt].
    - rewrite Hin. reflexivity.
    - apply Qlt_bool_iff in Hlt. rewrite Hlt, orb_true_r. reflexivity. }
  destruct (POST_validated env req db uid data item rest Hc Hv Hitems)
    as [lg ->].
  simpl. unfold first_item_error. rewrite Hout. auto.
Qed.

Lemma POST_first_item_unavailable_witness :
  (POST sample_env
     (mkPlaceRequest (signed_in "u1")
        (order_body None [mkItem "g2" 1 4; mkItem "g1" 2 10] None 30))
     sample_db).2
  = inr (mkResponse 500
           (body_error_message
              (Error ("Gift " +:+ "g2" +:+ " is out of stock or unavailable"))))
  /\ committed
       (POST sample_env
          (mkPlaceRequest (signed_in "u1")
             (order_body None [mkItem "g2" 1 4; mkItem "g1" 2 10] None 30))
          sample_db).1
     = committed sample_db.
Proof.
  eapply (POST_first_item_unavailable sample_env
            (mkPlaceRequest (signed_in "u1")
               (order_body None [mkItem "g2" 1 4; mkItem "g1" 2 10] None 30))
            sample_db "u1" _ (mkItem "g2" 1 4) [mkItem "g1" 2 10]).
  - reflexivity.
  - vm_compute. reflexivity.
  - reflexivity.
  - vm_compute. left. reflexivity.
Defined.

Lemma zod_ap_issues {A B} (f : Zod (A -> B)) (a : Zod A) :
  (f <**> a).1 = (f.1 ++ a.1)%list.
Proof. reflexivity. Qed.

Lemma zod_refine_issues {T} (r : Zod T) pred path issue :
  In issue r.1 -> In issue (zod_refine r pred path).1.
Proof.
  unfold zod_refine. destruct (r.2) as [d|]; [|auto]. simpl.
  destruct (pred d); [auto|]. intros H. apply in_or_app. auto.
Qed.

Lemma zod_parse_issues {T} (r : Zod T) issue :
  In issue r.1 -> exists errors, zod_parse r = inl errors /\ In issue errors.
Proof.
  destruct r as [[|i rest] [v|]]; simpl; intros H; try contradiction;
    eexists; split; try reflexivity; exact H.
Qed.

(** X11: a delivery time sent by the client is refused.  A request body
    is JSON and cannot hold a [Date]: a body that supplies a (non-empty)
    [deliveryTime] is answered 400 with an error at "deliveryTime", and
    nothing in the store changes. *)
Theorem POST_delivery_time (env : Env) (req : PlaceRequest) (db : Db)
    (uid : string) :
  caller_id (place_session req) = Some uid ->
  (forall d, in_deliveryTime (place_body req) <> Some (IsDate d)) ->
  truthy_date (in_deliveryTime (place_body req)) = true ->
  exists errors,
    (POST env req db).2 = inr (mkResponse 400 (body_errors errors))
    /\ In "deliveryTime" errors
    /\ committed (POST env req db).1 = committed db.
Proof.
  intros Hc Hjson Htruthy.
  destruct (in_deliveryTime (place_body req)) as [[d|raw]|] eqn:Hdt;
    [exfalso; eapply Hjson; reflexivity | | discriminate].
  destruct (zod_parse_issues
              (OrderValidationSchema (now env)
                 (stamped_body env uid (place_body req))) "deliveryTime")
    as (errors & Herr & Hin).
  { apply zod_refine_issues. unfold OrderObjectSchema, zod_map.
    rewrite !zod_ap_issues.
    assert (H : In "deliveryTime"
                  (zod_required z_date "deliveryTime"
                     (in_deliveryTime
                        (stamped_body env uid (place_body req)))).1).
    { simpl. rewrite Hdt, Htruthy. simpl. auto. }
    rewrite !in_app_iff. tauto. }
  exists errors. rewrite (POST_rejected env req db uid errors Hc Herr).
  auto.
Qed.

Lemma POST_delivery_time_witness :
  exists errors,
    (POST sample_env
       (mkPlaceRequest (signed_in "u1")
          (mkOrderInput None sample_recipient [mkItem "g1" 2 10]
             sample_address sample_payment None
             (Some (NotDate "2030-01-01T10:00:00.000Z")) None 26 5 1 None
             None None))
       sample_db).2
    = inr (mkResponse 400 (body_errors errors))
    /\ In "deliveryTime" errors
    /\ committed
         (POST sample_env
            (mkPlaceRequest (signed_in "u1")
               (mkOrderInput None sample_recipient [mkItem "g1" 2 10]
                  sample_address sample_payment None
                  (Some (NotDate "2030-01-01T10:00:00.000Z")) None 26 5 1
                  None None None))
            sample_db).1
       = committed sample_db.
Proof.
  apply (POST_delivery_time sample_env
           (mkPlaceRequest (signed_in "u1")
              (mkOrderInput None sample_recipient [mkItem "g1" 2 10]
                 sample_address sample_payment None
                 (Some (NotDate "2030-01-01T10:00:00.000Z")) None
                 26 5 1 None None None))
           sample_db "u1" eq_refl
           ltac:(intros d H; discriminate H)).
  reflexivity.
Defined.

(** ** Properties of the tracking route, and of reads after writes *)

Lemma GET_tracking_run req db :
  GET_tracking req db =
  match caller_id (get_session req) with
  | None =>
      (mkDb (committed db) (transaction db) (log db ++ [op_connect]),
       inr (mkTrackingResponse 401 (tracking_error "Authentication required")))
  | Some uid =>
      (mkDb (committed db) (transaction db)
         ((log db ++ [op_connect]) ++ [op_find_order (get_id req)]),
       inr (match orders (committed db) !! get_id req with
            | None => mkTrackingResponse 404 (tracking_error "Order not found")
            | Some order =>
                if String.eqb (user order) uid
                then mkTrackingResponse 200
                       (tracking_info
                          (mkTrackingInfo (get_id req) (status order)
                             (tracking order) (deliveryPartner order)
                             (deliveryTime order) (recipient order)
                             (deliveryAddress order)))
                else mkTrackingResponse 403 (tracking_error "Access denied")
            end))
  end.
Proof.
  unfold GET_tracking. run_monad.
  destruct (caller_id (get_session req)) as [uid|]; [|reflexivity]. simpl.
  destruct (orders (committed db) !! get_id req) as [o|]; [|reflexivity].
  destruct (String.eqb (user o) uid); reflexivity.
Qed.

(** X12: the tracking route answers as the single-order [GET] does, with
    the same status code: where [GET] returns the order, it returns the
    order's identifier, status, tracking events, delivery partner, delivery
    time, recipient and address; where [GET] refuses (401, 404, 403), it
    refuses with the same message.  It writes nothing. *)
Theorem GET_tracking_mirrors_GET (req : GetRequest) (db : Db) :
  committed (GET_tracking req db).1 = committed db
  /\ match (GET req db).2 with
     | inr (mkResponse code (body_order_populated oid o _)) =>
         (GET_tracking req db).2
         = inr (mkTrackingResponse code
                  (tracking_info
                     (mkTrackingInfo oid (status o) (tracking o)
                        (deliveryPartner o) (deliveryTime o) (recipient o)
                        (deliveryAddress o))))
     | inr (mkResponse code (body_error e)) =>
         (GET_tracking req db).2
         = inr (mkTrackingResponse code (tracking_error e))
     | _ => False
     end.
Proof.
  rewrite GET_tracking_run, GET_run.
  destruct (caller_id (get_session req)) as [uid|]; simpl; [|auto].
  split; [reflexivity|].
  destruct (orders (committed db) !! get_id req) as [o|]; [|reflexivity].
  destruct (String.eqb (user o) uid); reflexivity.
Qed.

(** X13: the caller reads back what was written.  After an update
    answered 200, the order of that answer is the stored one, and a [GET]
    of that order with the same session is answered 200 with that order,
    its gift references populated from the stored gifts. *)
Theorem read_your_writes (env : Env) (req : PutRequest) (db : Db)
    (o : Order) :
  (PUT env req db).2 = inr (mkResponse 200 (body_order (put_id req) o)) ->
  orders (committed (PUT env req db).1) !! put_id req = Some o
  /\ (GET (mkGetRequest (put_session req) (put_id req))
        (PUT env req db).1).2
     = inr (mkResponse 200
              (body_order_populated (put_id req) o
                 (populated (gifts (committed db)) o))).
Proof.
  intros H.
  apply PUT_200 in H as (uid & o0 & _ & Hc & _ & Hu & _ & Hd & _ & _ & Hst).
  assert (Ho : orders (committed (PUT env req db).1) !! put_id req = Some o)
    by (rewrite Hst; apply lookup_insert_eq).
  split; [exact Ho|].
  rewrite GET_run. simpl. rewrite Hc, Ho.
  assert (Huser : user o = uid).
  { rewrite Hd.
    destruct (apply_patch_document (now env) (put_body req) o0)
      as (st & text & added & -> & _). exact Hu. }
  apply String.eqb_eq in Huser. rewrite Huser, Hst. reflexivity.
Qed.

Lemma read_your_writes_witness :
  orders (committed
            (PUT sample_env (instructions_request "ring twice")
               (db_with_order pending)).1) !! "o1"
  = Some (set_specialInstructions (sample_order pending) (Some "ring twice"))
  /\ (GET (mkGetRequest (signed_in "u1") "o1")
        (PUT sample_env (instructions_request "ring twice")
           (db_with_order pending)).1).2
     = inr (mkResponse 200
              (body_order_populated "o1"
                 (set_specialInstructions (sample_order pending)
                    (Some "ring twice"))
                 [true])).
Proof.
  apply (read_your_writes sample_env (instructions_request "ring twice")
           (db_with_order pending)
           (set_specialInstructions (sample_order pending)
              (Some "ring twice"))).
  vm_compute. reflexivity.
Defined.

(** X14: tracking follows the writes.  Right after an update answered
    200, the tracking route shows the caller the status and the tracking
    events of the updated order. *)
Theorem tracking_follows_writes (env : Env) (req : PutRequest) (db : Db)
    (o : Order) :
  (PUT env req db).2 = inr (mkResponse 200 (body_order (put_id req) o)) ->
  (GET_tracking (mkGetRequest (put_session req) (put_id req))
     (PUT env req db).1).2
  = inr (mkTrackingResponse 200
           (tracking_info
              (mkTrackingInfo (put_id req) (status o) (tracking o)
                 (deliveryPartner o) (deliveryTime o) (recipient o)
                 (deliveryAddress o)))).
Proof.
  intros H.
  apply PUT_200 in H as (uid & o0 & _ & Hc & _ & Hu & _ & Hd & _ & _ & Hst).
  assert (Ho : orders (committed (PUT env req db).1) !! put_id req = Some o)
    by (rewrite Hst; apply lookup_insert_eq).
  rewrite GET_tracking_run. simpl. rewrite Hc, Ho.
  assert (Huser : user o = uid).
  { rewrite Hd.
    destruct (apply_patch_document (now env) (put_body req) o0)
      as (st & text & added & -> & _). exact Hu. }
  apply String.eqb_eq in Huser. rewrite Huser. reflexivity.
Qed.

Lemma tracking_follows_writes_witness :
  (GET_tracking (mkGetRequest (put_session (cancel_request (Some "late")))
                   (put_id (cancel_request (Some "late"))))
     (PUT sample_env (cancel_request (Some "late"))
        (db_with_order confirmed)).1).2
  = inr (mkTrackingResponse 200
           (tracking_info
              (mkTrackingInfo "o1" canceled
                 [mkEvent "pending" 1000%Z (Some "Order received");
                  mkEvent "canceled" 1000%Z (Some "late")]
                 (Some sample_partner) 3601000%Z
                 (mkRecipient "Ann" 7 girl None) sample_address))).
Proof.
  apply (tracking_follows_writes sample_env (cancel_request (Some "late"))
           (db_with_order confirmed)
           (mkOrder "u1" (mkRecipient "Ann" 7 girl None) [mkItem "g1" 2 10]
              sample_address (mkPayment upi payment_pending None) canceled
              3601000%Z None 26 5 1 0 (Some sample_partner)
              [mkEvent "pending" 1000%Z (Some "Order received");
               mkEvent "canceled" 1000%Z (Some "late")])).
  vm_compute. reflexivity.
Defined.

(** ** Properties of the API middleware *)

(** [startsWith]: a path starts with [p] when it is [p] followed by
    something. *)
Lemma prefix_iff (p s : string) :
  String.prefix p s = true <-> exists rest, s = p +:+ rest.
Proof.
  revert s. induction p as [|a p IH]; intros s.
  - split; [intros _; exists s; reflexivity|].
    intros _. destruct s; reflexivity.
  - destruct s as [|b s]; simpl.
    + split; [discriminate | intros [rest H]; discriminate].
    + destruct (Ascii.ascii_dec a b) as [->|Hne].
      * rewrite IH. split; intros [rest H]; exists rest.
        -- rewrite H. reflexivity.
        -- injection H as H. exact H.
      * split; [discriminate|]. intros [rest H]. injection H as H _.
        congruence.
Qed.

(** Two prefixes that part ways cannot both start a path. *)
Lemma auth_and_gifts_prefixes_exclude (path : string) :
  String.prefix "/api/a" path = true -> String.prefix "/api/g" path = false.
Proof.
  intros H. apply prefix_iff in H as [r1 ->].
  apply not_true_iff_false. intros H. apply prefix_iff in H as [r2 H].
  discriminate H.
Qed.

Lemma prefix_longer (p q path : string) :
  String.prefix (p +:+ q) path = true -> String.prefix p path = true.
Proof.
  intros H. apply prefix_iff in H as [rest ->]. apply prefix_iff.
  exists (q +:+ rest). induction p as [|a p IH]; [reflexivity|].
  change (String a ((p +:+ q) +:+ rest) = String a (p +:+ q +:+ rest)).
  rewrite IH. reflexivity.
Qed.

(** X15: which requests the middleware lets through without a token: those
    whose path starts with "/api/auth/login" or "/api/auth/register", with
    any method, and those whose path starts with "/api/gifts" and whose
    method is GET.  Nothing else is public. *)
Theorem isPublic_iff (path method : string) :
  isPublic path method = true <->
  startsWith path "/api/auth/login" = true
  \/ startsWith path "/api/auth/register" = true
  \/ (startsWith path "/api/gifts" = true /\ method = "GET").
Proof.
  assert (Hex : forall q,
            String.prefix ("/api/a" +:+ q) path = true ->
            String.prefix "/api/gifts" path = false).
  { intros q H. apply prefix_longer, auth_and_gifts_prefixes_exclude in H.
    destruct (String.prefix "/api/gifts" path) eqn:E; [|reflexivity].
    apply (prefix_longer "/api/g" "ifts") in E. congruence. }
  unfold isPublic, publicPaths, startsWith. simpl existsb.
  rewrite orb_false_r.
  destruct (String.prefix "/api/auth/login" path) eqn:Hl.
  { rewrite (Hex "uth/login" Hl). simpl. split; auto. }
  destruct (String.prefix "/api/auth/register" path) eqn:Hr.
  { rewrite (Hex "uth/register" Hr). simpl. split; auto. }
  simpl. destruct (String.prefix "/api/gifts" path); simpl.
  - destruct (String.eqb method "GET") eqn:Hm; simpl.
    + apply String.eqb_eq in Hm. split; auto.
    + apply String.eqb_neq in Hm. split; [discriminate|].
      intros [H|[H|[_ H]]]; try discriminate. contradiction.
  - split; [discriminate|].
    intros [H|[H|[H _]]]; discriminate.
Qed.

(** X16: the order routes are behind the token.  For every path that
    starts with "/api/orders" (the collection, one order, its tracking)
    and every method, the middleware answers 401 when there is no token
    and lets the request through when there is one. *)
Theorem middleware_guards_orders (encodeURI : string -> string)
    (rest method url : string) (token : bool) :
  isPublic ("/api/orders" +:+ rest) method = false
  /\ middleware encodeURI
       (mkMiddlewareRequest ("/api/orders" +:+ rest) method url token)
     = if token then middleware_next else middleware_unauthorized.
Proof.
  assert (H : isPublic ("/api/orders" +:+ rest) method = false)
    by reflexivity.
  split; [exact H|]. unfold middleware. cbn [pathname req_method has_token].
  rewrite H. destruct token; reflexivity.
Qed.

(** X17: the gift routes are public for reading only.  For every path that
    starts with "/api/gifts", a GET passes the middleware without a token,
    and any other method without a token is answered 401. *)
Theorem middleware_gifts_read_only (encodeURI : string -> string)
    (rest method url : string) :
  middleware encodeURI
    (mkMiddlewareRequest ("/api/gifts" +:+ rest) method url false)
  = if String.eqb method "GET" then middleware_next
    else middleware_unauthorized.
Proof.
  assert (Hl : String.prefix "/api/auth/login" ("/api/gifts" +:+ rest)
               = false) by reflexivity.
  assert (Hr : String.prefix "/api/auth/register" ("/api/gifts" +:+ rest)
               = false) by reflexivity.
  assert (Hp : String.prefix "/api/gifts" ("/api/gifts" +:+ rest) = true)
    by (apply prefix_iff; exists rest; reflexivity).
  assert (Ha : String.prefix "/api" ("/api/gifts" +:+ rest) = true)
    by (apply prefix_iff; exists ("/gifts" +:+ rest); reflexivity).
  unfold middleware, isPublic, publicPaths, startsWith.
  cbn [pathname req_method has_token existsb].
  rewrite Hl, Hr, Hp, Ha. simpl.
  destruct (String.eqb method "GET"); reflexivity.
Qed.

(** ** What an update saves *)

Lemma OrderSchema_validate_quantities (o : Order) :
  OrderSchema_validate o = [] ->
  Forall (fun item => 1 <= quantity item) (items o).
Proof.
  unfold OrderSchema_validate. intros H.
  apply app_eq_nil in H as [_ H]. revert H.
  assert (Hf : forall (g : nat -> nat) l,
            concat (imap (fun i it =>
                      if Qle_bool 1 (quantity it) then []
                      else ["items." +:+ pretty (g i) +:+ ".quantity"]) l)
            = [] ->
            Forall (fun item => 1 <= quantity item) l).
  { intros g l. revert g. induction l as [|x l IH]; intros g H.
    - constructor.
    - simpl in H. apply app_eq_nil in H as [Hx Hl].
      constructor.
      + destruct (Qle_bool 1 (quantity x)) eqn:E; [|discriminate].
        apply Qle_bool_iff, E.
      + apply (IH (fun i => g (S i))). exact Hl. }
  exact (Hf (fun i => i) (items o)).
Qed.

(** X18: what every order saved by an update looks like.  An order that
    an update call answers with 200 has an owner, at least one line item,
    in every line item a gift reference, a quantity of at least 1 and a
    price that is not negative, a positive total, a fee, a tax and a
    discount that are not negative, amounts that pass the check of the
    code, and a delivery partner with a phone number of ten digits and a
    location. *)
Theorem updated_orders_are_well_formed (env : Env) (req : PutRequest)
    (db : Db) (o : Order) :
  (PUT env req db).2 = inr (mkResponse 200 (body_order (put_id req) o)) ->
  user o <> ""
  /\ items o <> []
  /\ Forall (fun item => gift item <> "" /\ 1 <= quantity item
                         /\ 0 <= price item) (items o)
  /\ 0 < totalAmount o /\ 0 <= deliveryFee o /\ 0 <= tax o
  /\ 0 <= discount o
  /\ order_amounts_match o = true
  /\ partner_complete o.
Proof.
  intros H.
  apply PUT_200 in H as (_ & _ & _ & _ & _ & _ & _ & _ & _ & Hp & _).
  destruct Hp as [Hv [t0 Hh]].
  pose proof (hook_accepts_amounts _ _ Hh) as Hm.
  pose proof (hook_accepts_partner _ _ Hh) as Hpc.
  destruct Hh as [d H].
  pose proof (OrderSchema_validate_quantities o Hv) as Hq.
  unfold OrderValidationSchema in H.
  apply zod_parse_inr, zod_refine_accept in H as [H _].
  apply OrderObjectSchema_accept in H.
  destruct H as (H1 & _ & H3 & _ & _ & _ & _ & _ & H9 & H10 & H11 & H12 & _).
  cbn [orderData in_user in_items in_totalAmount in_deliveryFee in_tax
       in_discount] in *.
  apply zod_required_accept in H1 as (u & Hu & H1). injection Hu as <-.
  apply zod_check_accept in H1 as [H1 _]. apply Nat.leb_le in H1.
  rewrite items_data in H3. apply items_accept in H3 as (_ & Hall & Hlen).
  apply zod_check_accept in H9 as [H9 _]. apply Qlt_bool_iff in H9.
  apply zod_check_accept in H10 as [H10 _]. apply Qle_bool_iff in H10.
  apply zod_check_accept in H11 as [H11 _]. apply Qle_bool_iff in H11.
  apply zod_default_accept, zod_check_accept in H12 as [H12 _].
  apply Qle_bool_iff in H12.
  split; [|split; [|split; [|split; [|split; [|split; [|split;
    [|split]]]]]]]; try assumption.
  - intros E. rewrite E in H1. simpl in H1. lia.
  - intros E. rewrite E in Hlen. simpl in Hlen. lia.
  - rewrite Forall_forall in Hall, Hq. apply Forall_forall.
    intros item Hin. destruct (Hall item Hin) as (Hg & _ & Hpr).
    split; [|split; [apply Hq, Hin | exact Hpr]].
    intros E. rewrite E in Hg. simpl in Hg. lia.
Qed.

Lemma updated_orders_are_well_formed_witness :
  user (set_specialInstructions (sample_order pending) (Some "ring twice"))
  <> ""
  /\ partner_complete
       (set_specialInstructions (sample_order pending) (Some "ring twice")).
Proof.
  destruct (updated_orders_are_well_formed sample_env
              (instructions_request "ring twice") (db_with_order pending)
              (set_specialInstructions (sample_order pending)
                 (Some "ring twice")))
    as (H1 & _ & _ & _ & _ & _ & _ & _ & H9).
  - vm_compute. reflexivity.
  - split; [exact H1|exact H9].
Defined.

(** ** The gift schema and the gift routes *)

Lemma zod_array_from_sound {A B} (schema : string -> A -> Zod B)
    (P : B -> Prop)
    (HP : forall path x y, schema path x = ([], Some y) -> P y)
    (path : string) (l : list A) :
  forall (i : nat) (l' : list B),
    zod_array_from schema path i l = ([], Some l') -> Forall P l'.
Proof.
  induction l as [|x l IH]; intros i l'; simpl.
  - rewrite zod_ok_accept. intros ->. constructor.
  - rewrite zod_ap_accept. intros (g & xs & Hg & Hxs & ->).
    apply zod_map_accept in Hg as (y & Hy & ->).
    constructor; [eapply HP, Hy | apply (IH (S i)), Hxs].
Qed.

Lemma zod_array_from_same {A} (schema : string -> A -> Zod A)
    (HP : forall path x y, schema path x = ([], Some y) -> y = x)
    (path : string) (l : list A) :
  forall (i : nat) (l' : list A),
    zod_array_from schema path i l = ([], Some l') -> l' = l.
Proof.
  induction l as [|x l IH]; intros i l'; simpl.
  - rewrite zod_ok_accept. auto.
  - rewrite zod_ap_accept. intros (g & xs & Hg & Hxs & ->).
    apply zod_map_accept in Hg as (y & Hy & ->).
    rewrite (HP _ _ _ Hy), (IH _ _ Hxs). reflexivity.
Qed.

Lemma in_range_iff (lo hi x : Q) :
  in_range lo hi x = true <-> lo <= x /\ x <= hi.
Proof.
  unfold in_range. rewrite andb_true_iff, !Qle_bool_iff. reflexivity.
Qed.

Lemma ReviewSchema_accept now p r r' :
  ReviewSchema now p r = ([], Some r') -> review_ok r'.
Proof.
  unfold ReviewSchema, z_string_min, z_number_range. intros H.
  zod_fields H. subst.
  apply zod_check_accept in H as [H1 ->].
  apply zod_check_accept in Hfield1 as [H2 ->].
  apply Nat.leb_le in H1. apply in_range_iff in H2.
  unfold review_ok. cbn [userId review_rating]. split; [|exact H2].
  intros E. rewrite E in H1. simpl in H1. lia.
Qed.

(** No issue is raised for reviews that are in range. *)
Lemma review_issues_nil (rs : list Review) :
  Forall review_ok rs ->
  concat (imap (fun i r =>
            if in_range 1 5 (review_rating r) then []
            else ["reviews." +:+ pretty i +:+ ".rating"]) rs) = [].
Proof.
  intros Hrs.
  assert (Hf : forall (g : nat -> nat) l,
            Forall review_ok l ->
            concat (imap (fun i r =>
                      if in_range 1 5 (review_rating r) then []
                      else ["reviews." +:+ pretty (g i) +:+ ".rating"]) l)
            = []).
  { intros g l Hl. revert g. induction Hl as [|x l Hx _ IH]; intros g.
    - reflexivity.
    - simpl. destruct Hx as [_ Hx]. apply in_range_iff in Hx. rewrite Hx.
      simpl. apply (IH (fun i => g (S i))). }
  exact (Hf (fun i => i) rs Hrs).
Qed.

Section GiftProperties.
Variable is_url : string -> bool.
Variable max_age_check : Q -> bool.
Variable trim : string -> string.

(** Field by field: what an accepted gift body and its parsed data
    satisfy. *)
Lemma GiftValidationSchema_accept (now : Date) (g : GiftInput)
    (d : GiftData) :
  validateData (GiftValidationSchema now is_url max_age_check g) = inr d ->
  (gd_name d = in_gift_name g /\ (2 <= String.length (in_gift_name g))%nat)
  /\ (gd_description d = in_gift_description g
      /\ (10 <= String.length (in_gift_description g))%nat)
  /\ (gd_price d = in_price g /\ 0 < in_price g)
  /\ (gd_images d = in_images g /\ in_images g <> []
      /\ Forall (fun u => is_url u = true) (in_images g))
  /\ parse_Category (in_category g) = Some (gd_category d)
  /\ (gd_ageRange d = in_ageRange g
      /\ 0 <= ageRange_min (in_ageRange g)
      /\ ageRange_min (in_ageRange g) <= ageRange_max (in_ageRange g)
      /\ max_age_check (ageRange_max (in_ageRange g)) = true)
  /\ gd_tags d = in_tags g
  /\ gd_inStock d = default true (in_inStock g)
  /\ (gd_stockCount d = default 0 (in_stockCount g) /\ 0 <= gd_stockCount d)
  /\ gd_estimatedDeliveryTime d <= 60
  /\ (0 <= gd_rating d /\ gd_rating d <= 5)
  /\ (match gd_reviews d with
      | Some rs => Forall review_ok rs /\ in_reviews g <> None
      | None => in_reviews g = None
      end)
  /\ (0 <= gd_discount d /\ gd_discount d <= 100).
Proof.
  unfold validateData, GiftValidationSchema. intros H.
  apply zod_parse_inr in H. zod_fields H. subst.
  cbn [gd_name gd_description gd_price gd_images gd_category gd_ageRange
       gd_tags gd_inStock gd_stockCount gd_estimatedDeliveryTime gd_rating
       gd_reviews gd_discount].
  apply zod_check_accept in H as [H1 ->]. apply Nat.leb_le in H1.
  apply zod_check_accept in Hfield12 as [H2 ->]. apply Nat.leb_le in H2.
  apply zod_check_accept in Hfield11 as [H3 ->]. apply Qlt_bool_iff in H3.
  apply zod_refine_accept in Hfield10 as [H4 H4n].
  pose proof (zod_array_from_same (z_string_url is_url)
                (fun path x y Hy =>
                   proj2 (proj1 (zod_check_accept _ _ _ _) Hy))
                _ _ _ _ H4) as ->.
  apply (zod_array_from_sound (z_string_url is_url)
           (fun u => is_url u = true)
           (fun path x y Hy =>
              match proj1 (zod_check_accept _ _ _ _) Hy with
              | conj Hu Hxy => eq_ind_r (fun z => is_url z = true) Hu Hxy
              end)) in H4.
  apply z_enum_accept in Hfield9.
  apply zod_refine_accept in Hfield8 as [H6 H6r].
  unfold AgeRangeSchema, z_number_nonnegative in H6. zod_fields H6. subst.
  apply zod_check_accept in H6 as [H6a ->].
  apply zod_check_accept in Hfield8 as [H6b ->].
  apply Qle_bool_iff in H6a.
  unfold max_not_below_min in H6r. cbn [ageRange_min ageRange_max] in H6r.
  apply Qle_bool_iff in H6r.
  assert (H8 : v6 = in_tags g).
  { apply zod_optional_accept in Hfield6.
    destruct (in_tags g) as [ts|]; [|exact Hfield6].
    destruct Hfield6 as (ts' & Hts & ->). f_equal.
    exact (zod_array_from_same z_string
             (fun path x y Hy => proj1 (zod_ok_accept _ _) Hy) _ _ _ _ Hts). }
  assert (H9 : v5 = default true (in_inStock g)).
  { apply zod_default_accept in Hfield5.
    destruct (in_inStock g) as [b|]; [|exact Hfield5].
    apply (proj1 (zod_ok_accept _ _)) in Hfield5. exact Hfield5. }
  assert (H10 : v4 = default 0 (in_stockCount g) /\ 0 <= v4).
  { apply zod_default_accept in Hfield4.
    destruct (in_stockCount g) as [x|].
    - apply zod_check_accept in Hfield4 as [Hx ->].
      apply Qle_bool_iff in Hx. auto.
    - subst. split; [reflexivity|apply Qle_refl]. }
  assert (H11 : v3 <= 60).
  { apply zod_default_accept in Hfield3.
    destruct (in_estimatedDeliveryTime g) as [x|].
    - apply zod_check_accept in Hfield3 as [Hx ->].
      apply Qle_bool_iff in Hx. exact Hx.
    - subst. apply Qle_refl. }
  assert (H12 : 0 <= v2 /\ v2 <= 5).
  { apply zod_default_accept in Hfield2.
    destruct (in_rating g) as [x|].
    - apply zod_check_accept in Hfield2 as [Hx ->].
      apply in_range_iff in Hx. exact Hx.
    - subst. split; [apply Qle_refl|discriminate]. }
  assert (H13 : match v1 with
                | Some rs => Forall review_ok rs /\ in_reviews g <> None
                | None => in_reviews g = None
                end).
  { apply zod_optional_accept in Hfield1.
    destruct (in_reviews g) as [rs|]; [|subst; reflexivity].
    destruct Hfield1 as (rs' & Hrs & ->). split; [|discriminate].
    exact (zod_array_from_sound (ReviewSchema now) review_ok
             (ReviewSchema_accept now) _ _ _ _ Hrs). }
  assert (H15 : 0 <= v /\ v <= 100).
  { apply zod_default_accept in Hfield.
    destruct (in_gift_discount g) as [x|].
    - apply zod_check_accept in Hfield as [Hx ->].
      apply in_range_iff in Hx. exact Hx.
    - subst. split; [apply Qle_refl|discriminate]. }
  destruct (in_ageRange g) as [lo hi].
  cbn [ageRange_min ageRange_max] in *.
  repeat split; try assumption; try tauto.
  - intros E. rewrite E in H4n. discriminate.
Qed.

(** After the Zod validation a single validator of the Mongoose schema can
    still fail: [required] on [name], when trimming leaves nothing. *)
Lemma GiftSchema_validate_built now g d ts rs :
  validateData (GiftValidationSchema now is_url max_age_check g) = inr d ->
  Forall review_ok rs ->
  GiftSchema_validate_document (built trim d ts rs)
  = if String.eqb (trim (gd_name d)) "" then ["name"] else [].
Proof.
  intros Hv Hrs.
  destruct (GiftValidationSchema_accept now g d Hv)
    as (_ & (Hd & Hdl) & (Hp & Hp0) & (Hi & Hin & _) & _
        & (Ha & Ha0 & Ha1 & _) & _ & _ & (_ & Hs) & Ht & (Hr0 & Hr1) & _
        & (Hd0 & Hd1)).
  unfold GiftSchema_validate_document, GiftSchema_validate, built.
  cbn [gift_name gift_description gift_price images ageRange stock
       stockCount estimatedDeliveryTime rating reviews gift_discount].
  rewrite (review_issues_nil rs Hrs).
  assert (E1 : String.eqb (gd_description d) "" = false).
  { rewrite Hd. destruct (in_gift_description g); [simpl in Hdl; lia|].
    reflexivity. }
  assert (E2 : Qle_bool 0 (gd_price d) = true).
  { apply Qle_bool_iff. rewrite Hp. apply Qlt_le_weak, Hp0. }
  assert (E3 : (0 <? length (gd_images d))%nat = true).
  { rewrite Hi. destruct (in_images g); [congruence|reflexivity]. }
  assert (E4 : Qle_bool 0 (ageRange_min (gd_ageRange d)) = true).
  { apply Qle_bool_iff. rewrite Ha. exact Ha0. }
  assert (E5 : Qle_bool (ageRange_min (gd_ageRange d))
                 (ageRange_max (gd_ageRange d)) = true).
  { apply Qle_bool_iff. rewrite Ha. exact Ha1. }
  assert (E6 : Qle_bool 0 (gd_stockCount d) = true)
    by (apply Qle_bool_iff, Hs).
  assert (E7 : Qle_bool (gd_estimatedDeliveryTime d) 60 = true)
    by (apply Qle_bool_iff, Ht).
  assert (E8 : in_range 0 5 (gd_rating d) = true)
    by (apply in_range_iff; auto).
  assert (E9 : in_range 0 100 (gd_discount d) = true)
    by (apply in_range_iff; auto).
  rewrite E1, E2, E3, E4, E5, E6, E7, E8, E9.
  destruct (String.eqb (trim (gd_name d)) ""); reflexivity.
Qed.

Lemma gift_well_formed_built now g d ts rs :
  validateData (GiftValidationSchema now is_url max_age_check g) = inr d ->
  trim (gd_name d) <> "" ->
  Forall review_ok rs ->
  gift_well_formed is_url (built trim d ts rs).
Proof.
  intros Hv Hn Hrs.
  destruct (GiftValidationSchema_accept now g d Hv)
    as (_ & (Hd & Hdl) & (Hp & Hp0) & (Hi & Hin & Hurl) & _
        & (Ha & Ha0 & Ha1 & _) & _ & _ & (_ & Hs) & Ht & (Hr0 & Hr1) & _
        & (Hd0 & Hd1)).
  unfold gift_well_formed, built.
  cbn [gift_name gift_description gift_price images ageRange stock
       stockCount estimatedDeliveryTime rating reviews gift_discount].
  rewrite Hd, Hp, Hi, Ha. repeat split; assumption.
Qed.

(** What the reviews of the updated document are. *)
Lemma updated_reviews_ok now g d (old : list Review) :
  validateData (GiftValidationSchema now is_url max_age_check g) = inr d ->
  Forall review_ok old ->
  Forall review_ok (default old (gd_reviews d)).
Proof.
  intros Hv Hold.
  destruct (GiftValidationSchema_accept now g d Hv)
    as (_ & _ & _ & _ & _ & _ & _ & _ & _ & _ & _ & Hr & _).
  destruct (gd_reviews d) as [rs|]; [exact (proj1 Hr)|exact Hold].
Qed.

Lemma String_eqb_empty (s : string) :
  String.eqb s "" = false <-> s <> "".
Proof. rewrite <- not_true_iff_false, String.eqb_eq. reflexivity. Qed.

(** The outcome of [POST] for an authenticated caller and an accepted
    body. *)
Lemma POST_gift_run env req c uid d :
  caller_id (gift_post_session req) = Some uid ->
  validateData (GiftValidationSchema (now env) is_url max_age_check
                  (gift_post_body req)) = inr d ->
  POST_gift is_url max_age_check trim env req c
  = if String.eqb (trim (gd_name d)) ""
       || bool_decide (is_Some (c !! new_id env))
    then (c, mkGiftResponse 500 (body_gift_error "Failed to create gift"))
    else (<[new_id env := new_Gift trim d]> c,
          mkGiftResponse 201 (body_gift (new_id env) (new_Gift trim d))).
Proof.
  intros Hc Hv. unfold POST_gift, GiftDoc_save. rewrite Hc, Hv.
  change (new_Gift trim d)
    with (built trim d (default [] (gd_tags d)) (default [] (gd_reviews d))).
  rewrite (GiftSchema_validate_built (now env) _ d _ _ Hv
             (updated_reviews_ok _ _ d [] Hv (List.Forall_nil _))).
  destruct (String.eqb (trim (gd_name d)) ""); [reflexivity|].
  simpl. destruct (bool_decide (is_Some (c !! new_id env))); reflexivity.
Qed.

(** The outcome of [PUT] for an authenticated caller, a stored gift and an
    accepted body. *)
Lemma PUT_gift_run env req c uid old d :
  caller_id (gift_put_session req) = Some uid ->
  c !! gift_put_id req = Some old ->
  validateData (GiftValidationSchema (now env) is_url max_age_check
                  (gift_put_body req)) = inr d ->
  Forall review_ok (default (reviews old) (gd_reviews d)) ->
  PUT_gift is_url max_age_check trim env req c
  = if String.eqb (trim (gd_name d)) ""
    then (c, mkGiftResponse 500 (body_gift_error "Failed to update gift"))
    else (<[gift_put_id req := Object_assign trim old d]> c,
          mkGiftResponse 200
            (body_gift (gift_put_id req) (Object_assign trim old d))).
Proof.
  intros Hc Hold Hv Hrs. unfold PUT_gift, GiftDoc_save.
  rewrite Hc, Hold, Hv.
  change (Object_assign trim old d)
    with (built trim d (default (tags old) (gd_tags d))
            (default (reviews old) (gd_reviews d))).
  rewrite (GiftSchema_validate_built (now env) _ d _ _ Hv Hrs).
  destruct (String.eqb (trim (gd_name d)) ""); reflexivity.
Qed.

(** A [POST] answered 201: what was stored. *)
Lemma POST_gift_created env req c c' gid g :
  POST_gift is_url max_age_check trim env req c
  = (c', mkGiftResponse 201 (body_gift gid g)) ->
  exists uid d,
    caller_id (gift_post_session req) = Some uid
    /\ validateData (GiftValidationSchema (now env) is_url max_age_check
                       (gift_post_body req)) = inr d
    /\ trim (gd_name d) <> ""
    /\ gid = new_id env /\ c !! gid = None
    /\ g = new_Gift trim d /\ c' = <[gid := g]> c.
Proof.
  intros H.
  destruct (caller_id (gift_post_session req)) as [uid|] eqn:Hc;
    [|unfold POST_gift in H; rewrite Hc in H; discriminate].
  destruct (validateData (GiftValidationSchema (now env) is_url
              max_age_check (gift_post_body req))) as [errors|d] eqn:Hv;
    [unfold POST_gift in H; rewrite Hc, Hv in H; discriminate|].
  rewrite (POST_gift_run env req c uid d Hc Hv) in H.
  destruct (String.eqb (trim (gd_name d)) "") eqn:En; [discriminate|].
  destruct (bool_decide (is_Some (c !! new_id env))) eqn:Ed;
    [discriminate|].
  simpl in H. injection H as <- <- <-.
  exists uid, d. repeat split; try reflexivity.
  - apply String_eqb_empty, En.
  - apply bool_decide_eq_false in Ed.
    destruct (c !! new_id env); [exfalso; apply Ed; eauto|reflexivity].
Qed.

(** A [PUT] answered 200: what was stored. *)
Lemma PUT_gift_updated env req c c' gid g :
  PUT_gift is_url max_age_check trim env req c
  = (c', mkGiftResponse 200 (body_gift gid g)) ->
  exists uid old d,
    caller_id (gift_put_session req) = Some uid
    /\ c !! gid = Some old
    /\ validateData (GiftValidationSchema (now env) is_url max_age_check
                       (gift_put_body req)) = inr d
    /\ gift_name g <> ""
    /\ gid = gift_put_id req
    /\ g = Object_assign trim old d /\ c' = <[gid := g]> c.
Proof.
  unfold PUT_gift, GiftDoc_save. intros H.
  destruct (caller_id (gift_put_session req)) as [uid|] eqn:Hc;
    [|discriminate].
  destruct (c !! gift_put_id req) as [old|] eqn:Hold; [|discriminate].
  destruct (validateData (GiftValidationSchema (now env) is_url
              max_age_check (gift_put_body req))) as [errors|d] eqn:Hv;
    [discriminate|].
  destruct (GiftSchema_validate_document (Object_assign trim old d))
    as [|path paths] eqn:Hval; [|discriminate].
  simpl in H. injection H as <- <- <-.
  exists uid, old, d. repeat split; try reflexivity; try assumption.
  unfold GiftSchema_validate_document in Hval.
  apply app_eq_nil in Hval as [Hval _].
  destruct (String.eqb (gift_name (Object_assign trim old d)) "") eqn:En;
    [discriminate|].
  apply String_eqb_empty, En.
Qed.
End GiftProperties.

(** Where a handler leaves the catalogue. *)
Lemma POST_gift_store is_url max_age_check trim env req c :
  (POST_gift is_url max_age_check trim env req c).1 = c
  \/ exists gid g,
       POST_gift is_url max_age_check trim env req c
       = (<[gid := g]> c, mkGiftResponse 201 (body_gift gid g)).
Proof.
  unfold POST_gift.
  destruct (caller_id (gift_post_session req)); [|auto].
  destruct (validateData _) as [errors|d]; [auto|].
  destruct (GiftDoc_save _ _ _ _) as [e|c'] eqn:Hs; [auto|].
  unfold GiftDoc_save in Hs.
  destruct (GiftSchema_validate_document _); [|discriminate].
  destruct (_ && _); [discriminate|]. injection Hs as <-. eauto.
Qed.

Lemma PUT_gift_store is_url max_age_check trim env req c :
  (PUT_gift is_url max_age_check trim env req c).1 = c
  \/ exists g,
       PUT_gift is_url max_age_check trim env req c
       = (<[gift_put_id req := g]> c,
          mkGiftResponse 200 (body_gift (gift_put_id req) g)).
Proof.
  unfold PUT_gift.
  destruct (caller_id (gift_put_session req)); [|auto].
  destruct (c !! gift_put_id req); [|auto].
  destruct (validateData _) as [errors|d]; [auto|].
  destruct (GiftDoc_save _ _ _ _) as [e|c'] eqn:Hs; [auto|].
  unfold GiftDoc_save in Hs.
  destruct (GiftSchema_validate_document _); [|discriminate].
  simpl in Hs. injection Hs as <-. eauto.
Qed.

Lemma DELETE_gift_store req c :
  (DELETE_gift req c).1 = c
  \/ (DELETE_gift req c
      = (delete (get_id req) c,
         mkGiftResponse 200 (body_message "Gift deleted successfully"))
      /\ is_Some (c !! get_id req)
      /\ is_Some (caller_id (get_session req))).
Proof.
  unfold DELETE_gift.
  destruct (caller_id (get_session req)); [|auto].
  destruct (c !! get_id req) eqn:E; [|auto]. right. eauto.
Qed.

(** The loop of the order route stops at a first line item that cannot be
    served, before anything is written. *)
Lemma unavailable_first_item env req db uid data item rest :
  caller_id (place_session req) = Some uid ->
  validateData (OrderValidationSchema (now env)
                  (stamped_body env uid (place_body req))) = inr data ->
  in_items (place_body req) = item :: rest ->
  unavailable (gifts (committed db) !! gift item) item = true ->
  (POST env req db).2
  = inr (mkResponse 500
           (body_error_message
              (Error ("Gift " +:+ gift item
                      +:+ " is out of stock or unavailable"))))
  /\ committed (POST env req db).1 = committed db.
Proof.
  intros Hc Hv Hitems Hout.
  destruct (POST_validated env req db uid data item rest Hc Hv Hitems)
    as [lg ->].
  simpl. unfold first_item_error. rewrite Hout. auto.
Qed.

(** X20: what every gift stored through the gift routes looks like.  In
    any catalogue that creations, updates and deletions build from an empty
    one, each gift has a non-empty name, a description of at least 10
    characters, a positive price, at least one image and only URLs as
    images, an age range with [0 <= min <= max], a [stockCount] that is not
    negative, a delivery time of at most 60 minutes, a rating between 0 and
    5, reviews rated between 1 and 5 by a named user, and a discount
    between 0 and 100. *)
Theorem stored_gifts_are_well_formed (is_url : string -> bool)
    (max_age_check : Q -> bool) (trim : string -> string)
    (c : Catalogue) (gid : string) (g : GiftDoc) :
  catalogue_reachable is_url max_age_check trim c ->
  c !! gid = Some g ->
  gift_well_formed is_url g.
Proof.
  intros Hreach. revert gid g.
  induction Hreach as [|env req c Hreach IH|env req c Hreach IH
                       |req c Hreach IH]; intros gid g Hg.
  - rewrite lookup_empty in Hg. discriminate.
  - destruct (POST_gift_store is_url max_age_check trim env req c)
      as [E|(gid' & g' & E)].
    + rewrite E in Hg. eauto.
    + rewrite E in Hg. simpl in Hg.
      destruct (decide (gid' = gid)) as [Heq|Hne].
      * subst gid'. rewrite lookup_insert_eq in Hg. injection Hg as <-.
        apply POST_gift_created in E
          as (uid & d & _ & Hv & Hn & _ & _ & -> & _).
        exact (gift_well_formed_built is_url max_age_check trim _ _ d _ _
                 Hv Hn
                 (updated_reviews_ok is_url max_age_check _ _ d [] Hv
                    (List.Forall_nil _))).
      * rewrite lookup_insert_ne in Hg by exact Hne. eauto.
  - destruct (PUT_gift_store is_url max_age_check trim env req c)
      as [E|(g' & E)].
    + rewrite E in Hg. eauto.
    + rewrite E in Hg. simpl in Hg.
      destruct (decide (gift_put_id req = gid)) as [Heq|Hne].
      * rewrite Heq in Hg. rewrite lookup_insert_eq in Hg.
        injection Hg as <-.
        apply PUT_gift_updated in E
          as (uid & old & d & _ & Hold & Hv & Hn & _ & -> & _).
        pose proof (IH _ _ Hold)
          as (_ & _ & _ & _ & _ & _ & _ & _ & _ & _ & _ & Hrs & _).
        exact (gift_well_formed_built is_url max_age_check trim _ _ d _ _
                 Hv Hn
                 (updated_reviews_ok is_url max_age_check _ _ d _ Hv Hrs)).
      * rewrite lookup_insert_ne in Hg by exact Hne. eauto.
  - destruct (DELETE_gift_store req c) as [E|(E & _)].
    + rewrite E in Hg. eauto.
    + rewrite E in Hg. simpl in Hg.
      apply lookup_delete_Some in Hg as [_ Hg]. eauto.
Qed.

Lemma stored_gifts_are_well_formed_witness :
  gift_well_formed sample_is_url (sample_gift true 0).
Proof.
  apply (stored_gifts_are_well_formed sample_is_url (fun _ => true)
           sample_trim
           (POST_gift sample_is_url (fun _ => true) sample_trim gift_env
              (mkGiftPostRequest (signed_in "u1")
                 (gift_body "  Train " None None)) ∅).1
           "g1").
  - apply catalogue_POST, catalogue_start.
  - vm_compute. reflexivity.
Defined.

(** X21: a gift created without stock fields.  The created gift holds the
    stock fields of the body, [inStock] defaulting to true and [stockCount]
    to 0, so a gift created without them is stored as in stock with no
    stock: it does not satisfy [inStock == (stockCount > 0)].  As long as
    the body gives no [stockCount], every validated order whose first line
    item is that gift is answered 500, out of stock, and writes nothing. *)
Theorem POST_gift_default_stock (is_url : string -> bool)
    (max_age_check : Q -> bool) (trim : string -> string) (env : Env)
    (req : GiftPostRequest) (c c' : Catalogue) (gid : string)
    (g : GiftDoc) :
  POST_gift is_url max_age_check trim env req c
  = (c', mkGiftResponse 201 (body_gift gid g)) ->
  stock_view c' !! gid = Some (stock g)
  /\ stock g = mkGift (default true (in_inStock (gift_post_body req)))
                 (default 0 (in_stockCount (gift_post_body req)))
  /\ (in_inStock (gift_post_body req) = None ->
      in_stockCount (gift_post_body req) = None ->
      ~ gift_inv (stock g))
  /\ (in_stockCount (gift_post_body req) = None ->
      forall order_env order_req db uid data item rest,
        gifts (committed db) = stock_view c' ->
        caller_id (place_session order_req) = Some uid ->
        validateData
          (OrderValidationSchema (now order_env)
             (stamped_body order_env uid (place_body order_req)))
        = inr data ->
        in_items (place_body order_req) = item :: rest ->
        gift item = gid ->
        (POST order_env order_req db).2
        = inr (mkResponse 500
                 (body_error_message
                    (Error ("Gift " +:+ gid
                            +:+ " is out of stock or unavailable"))))
        /\ committed (POST order_env order_req db).1 = committed db).
Proof.
  intros H.
  apply POST_gift_created in H
    as (uid & d & _ & Hv & _ & _ & _ & -> & ->).
  destruct (GiftValidationSchema_accept is_url max_age_check _ _ d Hv)
    as (_ & _ & _ & _ & _ & _ & _ & Hin & (Hcount & _) & _).
  assert (Hstock : stock (new_Gift trim d)
                   = mkGift (default true (in_inStock (gift_post_body req)))
                       (default 0 (in_stockCount (gift_post_body req)))).
  { unfold new_Gift. cbn [stock]. rewrite Hin, Hcount. reflexivity. }
  assert (Hlook : stock_view (<[gid := new_Gift trim d]> c) !! gid
                  = Some (stock (new_Gift trim d))).
  { unfold stock_view. rewrite lookup_fmap, lookup_insert_eq. reflexivity. }
  split; [exact Hlook|]. split; [exact Hstock|]. split.
  - intros Hi Hc [Hinv _]. rewrite Hstock, Hi, Hc in Hinv.
    specialize (Hinv eq_refl). discriminate.
  - intros Hc order_env order_req db uid' data item rest Hdb Hcaller Hov
      Hitems Hgift.
    rewrite <- Hgift.
    apply (unavailable_first_item order_env order_req db uid' data item rest
             Hcaller Hov Hitems).
    rewrite Hdb, Hgift, Hlook, Hstock, Hc. simpl.
    pose proof (OrderValidationSchema_accept _ _ _ Hov) as (_ & _ & Hok & _).
    simpl in Hok. rewrite Hitems in Hok.
    inversion Hok as [|? ? (_ & Hq & _) _]; subst.
    apply Qlt_bool_iff in Hq. rewrite Hq, orb_true_r. reflexivity.
Qed.

Lemma POST_gift_default_stock_witness :
  stock_view (<["g1" := sample_gift true 0]> ∅) !! "g1"
  = Some (mkGift true 0)
  /\ ~ gift_inv (mkGift true 0)
  /\ (POST sample_env
        (mkPlaceRequest (signed_in "u1")
           (order_body None [mkItem "g1" 2 10] None 26))
        (mkDb (mkStore (stock_view (<["g1" := sample_gift true 0]> ∅)) ∅)
           None [])).2
     = inr (mkResponse 500
              (body_error_message
                 (Error ("Gift " +:+ "g1"
                         +:+ " is out of stock or unavailable")))).
Proof.
  destruct (POST_gift_default_stock sample_is_url (fun _ => true)
              sample_trim gift_env
              (mkGiftPostRequest (signed_in "u1")
                 (gift_body "  Train " None None))
              ∅ (<["g1" := sample_gift true 0]> ∅) "g1"
              (sample_gift true 0))
    as (H1 & _ & H3 & H4).
  - vm_compute. reflexivity.
  - split; [exact H1|]. split; [exact (H3 eq_refl eq_refl)|].
    refine (proj1 (H4 eq_refl sample_env
                     (mkPlaceRequest (signed_in "u1")
                        (order_body None [mkItem "g1" 2 10] None 26))
                     (mkDb (mkStore
                              (stock_view (<["g1" := sample_gift true 0]> ∅))
                              ∅) None [])
                     "u1" _ (mkItem "g1" 2 10) [] eq_refl eq_refl _
                     eq_refl eq_refl)).
    vm_compute. reflexivity.
Defined.

(** X22: an update replaces the stock fields.  After an update answered
    200 the gift holds the stock fields of the body, with the defaults
    ([inStock] true, [stockCount] 0) for those the body leaves out,
    whatever the stock was before: an update that does not mention the
    stock resets it to in stock with no stock.  [tags] and [reviews] are
    kept when the body leaves them out, and no other gift changes. *)
Theorem PUT_gift_overwrites_stock (is_url : string -> bool)
    (max_age_check : Q -> bool) (trim : string -> string) (env : Env)
    (req : GiftPutRequest) (c c' : Catalogue) (gid : string)
    (g : GiftDoc) :
  PUT_gift is_url max_age_check trim env req c
  = (c', mkGiftResponse 200 (body_gift gid g)) ->
  exists old,
    gid = gift_put_id req
    /\ c !! gid = Some old
    /\ c' = <[gid := g]> c
    /\ stock g = mkGift (default true (in_inStock (gift_put_body req)))
                   (default 0 (in_stockCount (gift_put_body req)))
    /\ (in_inStock (gift_put_body req) = None ->
        in_stockCount (gift_put_body req) = None ->
        stock g = mkGift true 0 /\ ~ gift_inv (stock g))
    /\ tags g = default (tags old) (in_tags (gift_put_body req))
    /\ (in_reviews (gift_put_body req) = None -> reviews g = reviews old).
Proof.
  intros H.
  apply PUT_gift_updated in H
    as (uid & old & d & _ & Hold & Hv & _ & Hid & -> & ->).
  destruct (GiftValidationSchema_accept is_url max_age_check _ _ d Hv)
    as (_ & _ & _ & _ & _ & _ & Htags & Hin & (Hcount & _) & _ & _ & Hrs
        & _).
  assert (Hstock : stock (Object_assign trim old d)
                   = mkGift (default true (in_inStock (gift_put_body req)))
                       (default 0 (in_stockCount (gift_put_body req)))).
  { unfold Object_assign. cbn [stock]. rewrite Hin, Hcount. reflexivity. }
  exists old.
  split; [exact Hid|]. split; [exact Hold|]. split; [reflexivity|].
  split; [exact Hstock|]. split; [|split].
  - intros Hi Hc. rewrite Hstock, Hi, Hc. split; [reflexivity|].
    intros [Hinv _]. specialize (Hinv eq_refl). discriminate.
  - unfold Object_assign. cbn [tags]. rewrite Htags. reflexivity.
  - intros Hnone. unfold Object_assign. cbn [reviews].
    destruct (gd_reviews d) as [rs|]; [|reflexivity].
    destruct Hrs as [_ Hrs]. contradiction.
Qed.

Lemma PUT_gift_overwrites_stock_witness :
  (PUT_gift sample_is_url (fun _ => true) sample_trim gift_env
     (mkGiftPutRequest (signed_in "u1") "g1" (gift_body "Train" None None))
     sample_catalogue).1
  = <["g1" := sample_gift true 0]> sample_catalogue
  /\ stock (sample_gift true 0) = mkGift true 0
  /\ ~ gift_inv (stock (sample_gift true 0)).
Proof.
  destruct (PUT_gift_overwrites_stock sample_is_url (fun _ => true)
              sample_trim gift_env
              (mkGiftPutRequest (signed_in "u1") "g1"
                 (gift_body "Train" None None))
              sample_catalogue
              (<["g1" := sample_gift true 0]> sample_catalogue)
              "g1" (sample_gift true 0))
    as (old & _ & _ & _ & _ & H & _).
  - vm_compute. reflexivity.
  - split; [vm_compute; reflexivity|exact (H eq_refl eq_refl)].
Defined.

(** X23: the catalogue reads back what was written.  After a creation
    answered 201 or an update answered 200, a [GET] of that gift answers
    200 with exactly the gift of that answer; after a deletion answered
    200, a [GET] of that gift answers 404 and so does a second deletion,
    which changes nothing. *)
Theorem gift_read_your_writes (is_url : string -> bool)
    (max_age_check : Q -> bool) (trim : string -> string) :
  (forall env req c c' gid g,
     POST_gift is_url max_age_check trim env req c
     = (c', mkGiftResponse 201 (body_gift gid g)) ->
     GET_gift gid c' = mkGiftResponse 200 (body_gift gid g))
  /\ (forall env req c c' gid g,
        PUT_gift is_url max_age_check trim env req c
        = (c', mkGiftResponse 200 (body_gift gid g)) ->
        GET_gift gid c' = mkGiftResponse 200 (body_gift gid g))
  /\ (forall req c c' message,
        DELETE_gift req c = (c', mkGiftResponse 200 message) ->
        c' = delete (get_id req) c
        /\ GET_gift (get_id req) c'
           = mkGiftResponse 404 (body_gift_error "Gift not found")
        /\ DELETE_gift req c'
           = (c', mkGiftResponse 404 (body_gift_error "Gift not found"))).
Proof.
  split; [|split].
  - intros env req c c' gid g H.
    apply POST_gift_created in H as (_ & _ & _ & _ & _ & _ & _ & _ & ->).
    unfold GET_gift. rewrite lookup_insert_eq. reflexivity.
  - intros env req c c' gid g H.
    apply PUT_gift_updated in H as (_ & _ & _ & _ & _ & _ & _ & _ & _ & ->).
    unfold GET_gift. rewrite lookup_insert_eq. reflexivity.
  - intros req c c' message H. unfold DELETE_gift in *.
    destruct (caller_id (get_session req)) as [uid|]; [|discriminate].
    destruct (c !! get_id req) as [g|]; [|discriminate].
    injection H as <- _. unfold GET_gift.
    rewrite lookup_delete_eq. auto.
Qed.

Lemma gift_read_your_writes_witness :
  GET_gift "g1" (<["g1" := sample_gift true 0]> ∅)
  = mkGiftResponse 200 (body_gift "g1" (sample_gift true 0)).
Proof.
  apply (proj1 (gift_read_your_writes sample_is_url (fun _ => true)
                  sample_trim)
           gift_env
           (mkGiftPostRequest (signed_in "u1")
              (gift_body "  Train " None None))
           ∅ (<["g1" := sample_gift true 0]> ∅) "g1" (sample_gift true 0)).
  vm_compute. reflexivity.
Defined.

(** X24: what a creation with an accepted body leads to.  For an
    authenticated caller and a body accepted by [GiftValidationSchema]:
    if trimming the name leaves nothing, or the identifier of the new
    document is taken, the answer is 500 "Failed to create gift" and the
    catalogue is unchanged; otherwise the answer is 201 and the gift is
    stored under the new identifier with its name trimmed, the stock
    fields of the body and, for tags and reviews that the body leaves out,
    empty lists. *)
Theorem POST_gift_outcome (is_url : string -> bool)
    (max_age_check : Q -> bool) (trim : string -> string) (env : Env)
    (req : GiftPostRequest) (c : Catalogue) (uid : string) (d : GiftData) :
  caller_id (gift_post_session req) = Some uid ->
  validateData (GiftValidationSchema (now env) is_url max_age_check
                  (gift_post_body req)) = inr d ->
  (trim (in_gift_name (gift_post_body req)) = ""
   \/ is_Some (c !! new_id env) ->
   POST_gift is_url max_age_check trim env req c
   = (c, mkGiftResponse 500 (body_gift_error "Failed to create gift")))
  /\ (trim (in_gift_name (gift_post_body req)) <> "" ->
      c !! new_id env = None ->
      exists g,
        POST_gift is_url max_age_check trim env req c
        = (<[new_id env := g]> c,
           mkGiftResponse 201 (body_gift (new_id env) g))
        /\ gift_name g = trim (in_gift_name (gift_post_body req))
        /\ stock g
           = mkGift (default true (in_inStock (gift_post_body req)))
               (default 0 (in_stockCount (gift_post_body req)))
        /\ tags g = default [] (in_tags (gift_post_body req))
        /\ (in_reviews (gift_post_body req) = None -> reviews g = [])).
Proof.
  intros Hc Hv.
  rewrite (POST_gift_run is_url max_age_check trim env req c uid d Hc Hv).
  destruct (GiftValidationSchema_accept is_url max_age_check _ _ d Hv)
    as ((Hname & _) & _ & _ & _ & _ & _ & Htags & Hin & (Hcount & _) & _ & _
        & Hrs & _).
  rewrite Hname. split.
  - intros [Hblank|Htaken].
    + rewrite Hblank. reflexivity.
    + rewrite (bool_decide_eq_true_2 _ Htaken), orb_true_r. reflexivity.
  - intros Hn Hfree. apply String_eqb_empty in Hn. rewrite Hn, Hfree.
    rewrite bool_decide_eq_false_2 by (intros [x Hx]; discriminate).
    simpl. eexists. split; [reflexivity|].
    unfold new_Gift. cbn [gift_name stock tags reviews].
    rewrite Hname, Htags, Hin, Hcount.
    repeat split. intros Hnone.
    destruct (gd_reviews d) as [rs|]; [|reflexivity].
    destruct Hrs as [_ Hrs]. contradiction.
Qed.

Lemma POST_gift_outcome_witness :
  POST_gift sample_is_url (fun _ => true) sample_trim gift_env
    (mkGiftPostRequest (signed_in "u1") (gift_body "   " None None)) ∅
  = (∅, mkGiftResponse 500 (body_gift_error "Failed to create gift")).
Proof.
  refine (proj1 (POST_gift_outcome sample_is_url (fun _ => true) sample_trim
                   gift_env
                   (mkGiftPostRequest (signed_in "u1")
                      (gift_body "   " None None))
                   ∅ "u1" _ eq_refl _) _).
  - vm_compute. reflexivity.
  - left. vm_compute. reflexivity.
Defined.

(** X25: a blank name stops an update as well.  For an authenticated
    caller, a stored gift and a body accepted by [GiftValidationSchema]
    whose name is empty once trimmed, the answer is 500 "Failed to update
    gift" and the catalogue is unchanged. *)
Theorem PUT_gift_blank_name (is_url : string -> bool)
    (max_age_check : Q -> bool) (trim : string -> string) (env : Env)
    (req : GiftPutRequest) (c : Catalogue) (uid : string) (old : GiftDoc)
    (d : GiftData) :
  caller_id (gift_put_session req) = Some uid ->
  c !! gift_put_id req = Some old ->
  validateData (GiftValidationSchema (now env) is_url max_age_check
                  (gift_put_body req)) = inr d ->
  trim (in_gift_name (gift_put_body req)) = "" ->
  PUT_gift is_url max_age_check trim env req c
  = (c, mkGiftResponse 500 (body_gift_error "Failed to update gift")).
Proof.
  intros Hc Hold Hv Hblank.
  destruct (GiftValidationSchema_accept is_url max_age_check _ _ d Hv)
    as ((Hname & _) & _).
  unfold PUT_gift, GiftDoc_save. rewrite Hc, Hold, Hv.
  unfold GiftSchema_validate_document, Object_assign. cbn [gift_name].
  rewrite Hname, Hblank. reflexivity.
Qed.

Lemma PUT_gift_blank_name_witness :
  PUT_gift sample_is_url (fun _ => true) sample_trim gift_env
    (mkGiftPutRequest (signed_in "u1") "g1" (gift_body "   " None None))
    sample_catalogue
  = (sample_catalogue,
     mkGiftResponse 500 (body_gift_error "Failed to update gift")).
Proof.
  refine (PUT_gift_blank_name sample_is_url (fun _ => true) sample_trim
            gift_env
            (mkGiftPutRequest (signed_in "u1") "g1"
               (gift_body "   " None None))
            sample_catalogue "u1" (sample_gift true 5) _ eq_refl _ _ _).
  - vm_compute. reflexivity.
  - vm_compute. reflexivity.
  - vm_compute. reflexivity.
Defined.

(** X26: who may write to the catalogue.  Without a caller identity a
    creation, an update and a deletion are answered 401 and change
    nothing.  With one, the outcome does not depend on whose it is: any
    two authenticated callers get the same answer and leave the same
    catalogue. *)
Theorem gift_writes_need_identity (is_url : string -> bool)
    (max_age_check : Q -> bool) (trim : string -> string) (env : Env)
    (c : Catalogue) (gid : string) (body : GiftInput) :
  (forall s,
     caller_id s = None ->
     POST_gift is_url max_age_check trim env (mkGiftPostRequest s body) c
     = (c, mkGiftResponse 401 (body_gift_error "Authentication required"))
     /\ PUT_gift is_url max_age_check trim env
          (mkGiftPutRequest s gid body) c
        = (c, mkGiftResponse 401
                (body_gift_error "Authentication required"))
     /\ DELETE_gift (mkGetRequest s gid) c
        = (c, mkGiftResponse 401
                (body_gift_error "Authentication required")))
  /\ (forall s1 s2,
        is_Some (caller_id s1) -> is_Some (caller_id s2) ->
        POST_gift is_url max_age_check trim env (mkGiftPostRequest s1 body) c
        = POST_gift is_url max_age_check trim env
            (mkGiftPostRequest s2 body) c
        /\ PUT_gift is_url max_age_check trim env
             (mkGiftPutRequest s1 gid body) c
           = PUT_gift is_url max_age_check trim env
               (mkGiftPutRequest s2 gid body) c
        /\ DELETE_gift (mkGetRequest s1 gid) c
           = DELETE_gift (mkGetRequest s2 gid) c).
Proof.
  split.
  - intros s Hs. unfold POST_gift, PUT_gift, DELETE_gift. simpl.
    rewrite Hs. auto.
  - intros s1 s2 [u1 H1] [u2 H2].
    unfold POST_gift, PUT_gift, DELETE_gift. simpl.
    rewrite H1, H2. auto.
Qed.

(** X27: the footprint of the gift routes.  A creation never changes or
    removes a stored gift; an update and a deletion leave every gift other
    than the addressed one as it is; an update creates no gift, and a
    deletion of a gift that is not stored changes nothing. *)
Theorem gift_routes_footprint (is_url : string -> bool)
    (max_age_check : Q -> bool) (trim : string -> string) (env : Env)
    (c : Catalogue) :
  (forall req gid g,
     c !! gid = Some g ->
     (POST_gift is_url max_age_check trim env req c).1 !! gid = Some g)
  /\ (forall req gid,
        gid <> gift_put_id req \/ c !! gid = None ->
        (PUT_gift is_url max_age_check trim env req c).1 !! gid = c !! gid)
  /\ (forall req gid,
        gid <> get_id req \/ c !! gid = None ->
        (DELETE_gift req c).1 !! gid = c !! gid).
Proof.
  split; [|split].
  - intros req gid g Hg.
    destruct (POST_gift_store is_url max_age_check trim env req c)
      as [E|(gid' & g' & E)]; [rewrite E; exact Hg|].
    pose proof E as E'.
    apply POST_gift_created in E' as (_ & _ & _ & _ & _ & _ & Hfree & _).
    rewrite E. simpl. rewrite lookup_insert_ne; [exact Hg|].
    intros ->. congruence.
  - intros req gid Hgid.
    destruct (PUT_gift_store is_url max_age_check trim env req c)
      as [E|(g' & E)]; [rewrite E; reflexivity|].
    pose proof E as E'.
    apply PUT_gift_updated in E' as (_ & old & _ & _ & Hold & _).
    rewrite E. simpl. apply lookup_insert_ne.
    destruct Hgid as [Hne|Hnone]; [congruence|].
    intros Heq. rewrite Heq in Hold. congruence.
  - intros req gid Hgid.
    destruct (DELETE_gift_store req c) as [E|(E & [g Hg] & _)];
      [rewrite E; reflexivity|].
    rewrite E. simpl. apply lookup_delete_ne.
    destruct Hgid as [Hne|Hnone]; [congruence|].
    intros Heq. rewrite Heq in Hg. congruence.
Qed.
